(** * check_schema.py: the post_attribution schema checker

    A shallow embedding of [src/check_schema.py] and the properties of its
    specification.

    The script reads one environment variable, opens a psycopg2 connection,
    runs three fixed SQL statements, prints a report and leaves with an exit
    status.  The embedding has three parts:

    - the Python side: strings, the two exception classes the script can
      meet ([Exception] and [SystemExit]), [print], [exit], [try]/[except],
      [float()], [or] and the [.Nf] format of f-strings;
    - the script itself, [check_schema], written in a small monad that
      records every [print] and every database call in order; the database
      behind psycopg2 is a [Driver]: for each call of the script, whether it
      raises and what it returns;
    - PostgreSQL's answer to the three statements of the script over a table
      [post_attribution], which gives a [Driver] for every [Server]. *)

From Stdlib Require Import ZArith QArith Qabs List Sorted String Ascii Bool Lia.

From Stdlib Require Import Floats.PrimFloat Floats.FloatOps Floats.SpecFloat.

From Corelib Require Uint63Axioms.

Import ListNotations.

Local Open Scope string_scope.

Local Open Scope Z_scope.

(** ** Python strings and integers *)

(** The line feed, written [\n] in the source. *)
Definition nl : string := String "010"%char EmptyString.

Definition digit_char (n : Z) : ascii :=
  ascii_of_nat (48 + Z.to_nat (n mod 10)).

(** [digits k n]: the [k] low-order decimal digits of [n], most significant
    first. *)
Fixpoint digits (k : nat) (n : Z) : string :=
  match k with
  | O => EmptyString
  | S k' => digits k' (n / 10) ++ String (digit_char n) EmptyString
  end.

(** [count_digits fuel n]: how many decimal digits [n >= 0] has (at least
    one), for [n < 2 ^ (fuel + 1)]. *)
Fixpoint count_digits (fuel : nat) (n : Z) : nat :=
  match fuel with
  | O => 1%nat
  | S fuel' => if n <? 10 then 1%nat else S (count_digits fuel' (n / 10))
  end.

(** The decimal numeral of a natural number, as [str] gives it. *)
Definition str_nonneg (n : Z) : string :=
  digits (count_digits (Z.to_nat (Z.log2 n)) n) n.

(** [str(n)] for a Python [int]. *)
Definition str_int (n : Z) : string :=
  if n <? 0 then "-" ++ str_nonneg (- n) else str_nonneg n.

(** [repr(s)] for a [str] with no quote, backslash or control character, as
    the names of [essential_columns] are. *)
Definition repr_str (s : string) : string := "'" ++ s ++ "'".

(** [str(l)] for a list of such strings: ['a', 'b']. *)
Definition str_list (l : list string) : string :=
  "[" ++ String.concat ", " (map repr_str l) ++ "]".

(** ** Python floats: [float()], [or 0] and the [.Nf] format *)

(** [round_half_even n d]: the integer nearest to [n / d], ties to the even
    one ([d > 0]). *)
Definition round_half_even (n d : Z) : Z :=
  let q := n / d in
  let r := n mod d in
  match 2 * r ?= d with
  | Lt => q
  | Gt => q + 1
  | Eq => if Z.even q then q else q + 1
  end.

(** The fixed-point numeral of [n / 10^d], [n >= 0], with [d] digits after
    the point; no point when [d] is zero. *)
Definition fixed_digits (d : nat) (n : Z) : string :=
  let p := 10 ^ Z.of_nat d in
  str_nonneg (n / p) ++
  match d with
  | O => EmptyString
  | S _ => "." ++ digits d (n mod p)
  end.

Definition sign_str (neg : bool) : string := if neg then "-" else EmptyString.

(** The magnitude of a finite binary float [m * 2^e] scaled by [10^d] and
    rounded to an integer, ties to even: the digits that C's and Python's
    correctly rounded [%.Nf] print. *)
Definition scaled_magnitude (d : nat) (m : positive) (e : Z) : Z :=
  if 0 <=? e
  then Zpos m * 2 ^ e * 10 ^ Z.of_nat d
  else round_half_even (Zpos m * 10 ^ Z.of_nat d) (2 ^ (- e)).

(** [format(x, '.df')] for a float [x]. *)
Definition format_f (d : nat) (x : float) : string :=
  match Prim2SF x with
  | S754_nan => "nan"
  | S754_infinity neg => sign_str neg ++ "inf"
  | S754_zero neg => sign_str neg ++ fixed_digits d 0
  | S754_finite neg m e => sign_str neg ++ fixed_digits d (scaled_magnitude d m e)
  end.

(** [floor(log2 (n / d))] for positive [n] and [d]. *)
Definition log2_ratio (n d : Z) : Z :=
  let k := Z.log2 n - Z.log2 d in
  if (if 0 <=? k then d * 2 ^ k <=? n else d <=? n * 2 ^ (- k))
  then k else k - 1.

(** The binary64 float nearest to [n / d] (ties to even), for positive [n]
    and [d]: 53 significant bits, no exponent under -1074, infinity from
    [2^1024] on. *)
Definition nearest_float (n d : Z) : float :=
  let e := Z.max (log2_ratio n d - 52) (-1074) in
  let m := if 0 <=? e then round_half_even n (d * 2 ^ e)
           else round_half_even (n * 2 ^ (- e)) d in
  Z.ldexp (of_uint63 (Uint63Axioms.of_Z m)) e.

(** The float nearest to a rational. *)
Definition float_of_Q (q : Q) : float :=
  match Qnum q with
  | Z0 => zero
  | Zpos n => nearest_float (Zpos n) (Zpos (Qden q))
  | Zneg n => PrimFloat.opp (nearest_float (Zpos n) (Zpos (Qden q)))
  end.

(** The numbers of the report: what psycopg2 hands back for an [AVG]
    column ([None] for SQL NULL, a finite [Decimal] for numeric and integer
    arguments, a [float] for double precision ones), and the [int] 0 of
    [or 0]. *)
Inductive PyNumber :=
| PyNone
| PyDecimal (q : Q)
| PyFloat (x : float)
| PyZero.

(** Truth value of a number: [None] and zeros are false, NaN is true. *)
Definition truthy_number (v : PyNumber) : bool :=
  match v with
  | PyNone => false
  | PyDecimal q => negb (Qnum q =? 0)
  | PyFloat x => negb (PrimFloat.eqb x zero)
  | PyZero => false
  end.

(** [v or 0]. *)
Definition or_zero (v : PyNumber) : PyNumber :=
  if truthy_number v then v else PyZero.

(** [float(v)]: the nearest float for a [Decimal]; none for [None], on
    which Python raises a [TypeError]. *)
Definition py_float (v : PyNumber) : option float :=
  match v with
  | PyNone => None
  | PyDecimal q => Some (float_of_Q q)
  | PyFloat x => Some x
  | PyZero => Some zero
  end.

(** ** Exceptions, output and database calls *)

(** The two classes of exception the script meets.  [SystemExit], which
    [exit] raises, derives from [BaseException] and not from [Exception];
    every error of psycopg2 and every [TypeError] is an [Exception], kept
    here with the text [str(e)] gives. *)
Inductive PyExc :=
| Exception (msg : string)
| SystemExit (code : Z).

(** The calls the script makes on psycopg2, one per place in the source. *)
Inductive Site :=
| AtConnect        (* line 16: psycopg2.connect(DATABASE_URL) *)
| AtCursor         (* line 17: conn.cursor(cursor_factory=RealDictCursor) *)
| AtExecColumns    (* line 20: cur.execute, the catalog statement *)
| AtFetchColumns   (* line 27: cur.fetchall() *)
| AtExecCount      (* line 50: cur.execute, the row count *)
| AtFetchCount     (* line 51: cur.fetchone() *)
| AtExecStats      (* line 56: cur.execute, the 7-day aggregate *)
| AtFetchStats     (* line 67: cur.fetchone() *)
| AtCursorClose    (* line 75: cur.close() *)
| AtConnClose.     (* line 76: conn.close() *)

(** What an observer of the process sees, in order: a line on standard
    output, or a call on the database driver with its argument (the
    connection string, the SQL text). *)
Inductive Event :=
| Print (text : string)
| Call (site : Site) (arg : string).

(** A row of the catalog statement, as the [RealDictCursor] returns it:
    the three selected columns of [information_schema.columns], all text. *)
Record ColumnDescriptor := {
  column_name : string;
  data_type : string;
  is_nullable : string
}.

(** A [datetime]: the instant it denotes, in microseconds since the epoch,
    and the text [str] prints for it. *)
Record Datetime := {
  instant : Z;
  isoformat : string
}.

(** The one row of the 7-day aggregate.  [MAX(posted_at)] comes back as a
    [datetime] or as [None]. *)
Record StatsRow := {
  total_posts : Z;
  avg_engagement : PyNumber;
  avg_views : PyNumber;
  avg_followers : PyNumber;
  most_recent_post : option Datetime
}.

(** The database as the script meets it through psycopg2: for every call,
    the message of the exception it raises, if it raises; and the result
    sets of the three statements.  Each call is made at most once in a run,
    so this covers every way the driver and the server can behave. *)
Record Driver := {
  fault : Site -> option string;
  catalog_rows : list ColumnDescriptor;
  count_row : option Z;
  stats_row : option StatsRow
}.

Inductive Result (A : Type) :=
| Return (a : A)
| Raise (e : PyExc).

Arguments Return {A} a.

Arguments Raise {A} e.

(** A piece of the script: given the driver, the events it produces and how
    it ends. *)
Definition Py (A : Type) : Type := Driver -> list Event * Result A.

Definition ret {A} (a : A) : Py A := fun _ => ([], Return a).

Definition bind {A B} (m : Py A) (k : A -> Py B) : Py B :=
  fun d =>
    match m d with
    | (t1, Return a) => let (t2, r) := k a d in ((t1 ++ t2)%list, r)
    | (t1, Raise e) => (t1, Raise e)
    end.

Declare Scope py_scope.

Delimit Scope py_scope with py.

Notation "x <- m ;; k" := (bind m (fun x => k))
  (at level 61, m at next level, right associativity) : py_scope.

Notation "m ;; k" := (bind m (fun _ => k))
  (at level 61, right associativity) : py_scope.

Local Open Scope py_scope.

Definition raise {A} (e : PyExc) : Py A := fun _ => ([], Raise e).

(** [print(text)]. *)
Definition print (text : string) : Py unit := fun _ => ([Print text], Return tt).

(** [exit(code)]: raises [SystemExit]. *)
Definition exit {A} (code : Z) : Py A := raise (SystemExit code).

(** A call on the driver: recorded, then it raises or returns. *)
Definition call (site : Site) (arg : string) : Py unit :=
  fun d =>
    ([Call site arg],
     match fault d site with
     | Some msg => Raise (Exception msg)
     | None => Return tt
     end).

(** The rows a fetch returns, read off the driver. *)
Definition result_set {A} (rows : Driver -> A) : Py A :=
  fun d => ([], Return (rows d)).

(** [try: body except Exception as e: handler(str(e))].  A [SystemExit]
    passes through. *)
Definition try_except {A} (body : Py A) (handler : string -> Py A) : Py A :=
  fun d =>
    match body d with
    | (t1, Raise (Exception msg)) => let (t2, r) := handler msg d in ((t1 ++ t2)%list, r)
    | other => other
    end.

(** [for x in l: body(x)]. *)
Fixpoint for_each {A} (l : list A) (body : A -> Py unit) : Py unit :=
  match l with
  | [] => ret tt
  | x :: l' => body x ;; for_each l' body
  end.

(** [row[key]] on the result of [fetchone()], which is [None] when the
    result set is empty. *)
Definition subscript {A} (row : option A) : Py A :=
  match row with
  | Some r => ret r
  | None => raise (Exception "'NoneType' object is not subscriptable")
  end.

(** How a process ends: with an exit status, or on an exception nobody
    caught (Python prints its traceback; the status is then 1). *)
Inductive Outcome :=
| Exited (status : Z)
| Traceback (msg : string).

Definition outcome_of {A} (r : Result A) : Outcome :=
  match r with
  | Return _ => Exited 0
  | Raise (SystemExit code) => Exited code
  | Raise (Exception msg) => Traceback msg
  end.

Definition exit_status (o : Outcome) : Z :=
  match o with
  | Exited status => status
  | Traceback _ => 1
  end.

(** ** The script *)

(** The process environment, and [os.getenv]. *)
Definition Environ := list (string * string).

Fixpoint getenv (key : string) (environ : Environ) : option string :=
  match environ with
  | [] => None
  | (k, v) :: rest => if String.eqb k key then Some v else getenv key rest
  end.

(** Truth value of [os.getenv]'s result: [None] and the empty string are
    false. *)
Definition truthy_str (v : option string) : bool :=
  match v with
  | None => false
  | Some EmptyString => false
  | Some _ => true
  end.

(** Lines 20-25: the columns of post_attribution, from the catalog. *)
Definition SQL_COLUMNS : string :=
  nl ++
  "        SELECT column_name, data_type, is_nullable" ++ nl ++
  "        FROM information_schema.columns" ++ nl ++
  "        WHERE table_name = 'post_attribution'" ++ nl ++
  "        ORDER BY ordinal_position;" ++ nl ++
  "    ".

(** Line 50: the number of rows. *)
Definition SQL_COUNT : string := "SELECT COUNT(*) as count FROM post_attribution;".

(** Lines 56-65: the aggregate over the rows posted in the last 7 days. *)
Definition SQL_STATS : string :=
  nl ++
  "            SELECT " ++ nl ++
  "                COUNT(*) as total_posts," ++ nl ++
  "                AVG(COALESCE(engagement_rate, 0)) as avg_engagement," ++ nl ++
  "                AVG(COALESCE(impressions, 0)) as avg_views," ++ nl ++
  "                AVG(COALESCE(followers_gained, 0)) as avg_followers," ++ nl ++
  "                MAX(posted_at) as most_recent_post" ++ nl ++
  "            FROM post_attribution" ++ nl ++
  "            WHERE posted_at > NOW() - INTERVAL '7 days';" ++ nl ++
  "        ".

(** [psycopg2.connect(dsn)]; without a connection string it is a
    [TypeError]. *)
Definition connect (dsn : option string) : Py unit :=
  match dsn with
  | Some s => call AtConnect s
  | None => raise (Exception "missing dsn and no parameters")
  end.

Definition cursor : Py unit := call AtCursor EmptyString.

Definition execute (site : Site) (sql : string) : Py unit := call site sql.

Definition fetchall : Py (list ColumnDescriptor) :=
  call AtFetchColumns EmptyString ;; result_set catalog_rows.

Definition fetchone_count : Py (option Z) :=
  call AtFetchCount EmptyString ;; result_set count_row.

Definition fetchone_stats : Py (option StatsRow) :=
  call AtFetchStats EmptyString ;; result_set stats_row.

Definition cur_close : Py unit := call AtCursorClose EmptyString.

Definition conn_close : Py unit := call AtConnClose EmptyString.

(** [float(v)] as a statement: a [TypeError] on [None]. *)
Definition float_of (v : PyNumber) : Py float :=
  match py_float v with
  | Some x => ret x
  | None => raise (Exception "float() argument must be a string or a real number, not 'NoneType'")
  end.

(** Line 35: one line per column. *)
Definition describe (col : ColumnDescriptor) : string :=
  "  - " ++ column_name col ++ ": " ++ data_type col ++ " (" ++
  (if String.eqb (is_nullable col) "YES" then "NULL" else "NOT NULL") ++ ")".

(** Line 38. *)
Definition essential_columns : list string :=
  ["engagement_rate"; "impressions"; "followers_gained"; "hook_pattern";
   "topic"; "generator_used"].

(** Line 39. *)
Definition existing_columns (columns : list ColumnDescriptor) : list string :=
  map column_name columns.

(** [col in l] for strings. *)
Definition str_in (col : string) (l : list string) : bool :=
  existsb (String.eqb col) l.

(** Line 41. *)
Definition missing_columns (columns : list ColumnDescriptor) : list string :=
  filter (fun col => negb (str_in col (existing_columns columns))) essential_columns.

(** [str(v)] for [MAX(posted_at)]. *)
Definition str_datetime (v : option Datetime) : string :=
  match v with
  | Some t => isoformat t
  | None => "None"
  end.

(** Lines 68-73: the report of the 7-day aggregate. *)
Definition report_stats (stats : option StatsRow) : Py unit :=
  print "📊 Last 7 days stats:" ;;
  stats <- subscript stats ;;
  print ("  - Posts: " ++ str_int (total_posts stats)) ;;
  e <- float_of (or_zero (avg_engagement stats)) ;;
  print ("  - Avg Engagement: " ++ format_f 2 (e * 100)%float ++ "%") ;;
  v <- float_of (or_zero (avg_views stats)) ;;
  print ("  - Avg Views: " ++ format_f 0 v) ;;
  f <- float_of (or_zero (avg_followers stats)) ;;
  print ("  - Avg Followers: " ++ format_f 1 f) ;;
  print ("  - Most Recent: " ++ str_datetime (most_recent_post stats)).

(** Lines 15-76: the body of the [try]. *)
Definition try_body (DATABASE_URL : option string) : Py unit :=
  connect DATABASE_URL ;;
  cursor ;;
  execute AtExecColumns SQL_COLUMNS ;;
  columns <- fetchall ;;
  (match columns with
   | [] => print "❌ post_attribution table doesn't exist!" ;; exit 1
   | _ => ret tt
   end) ;;
  print ("�� Found " ++ str_int (Z.of_nat (List.length columns)) ++
         " columns in post_attribution table:") ;;
  for_each columns (fun col => print (describe col)) ;;
  (match missing_columns columns with
   | [] => print (nl ++ "✅ All essential columns exist!")
   | missing =>
       print (nl ++ "❌ MISSING ESSENTIAL COLUMNS: " ++ str_list missing) ;;
       print "🔧 These columns are required for learning loops to work!"
   end) ;;
  execute AtExecCount SQL_COUNT ;;
  row <- fetchone_count ;;
  count <- subscript row ;;
  print (nl ++ "📈 Total posts in post_attribution: " ++ str_int count) ;;
  (if 0 <? count
   then execute AtExecStats SQL_STATS ;;
        stats <- fetchone_stats ;;
        report_stats stats
   else ret tt) ;;
  cur_close ;;
  conn_close.

(** Lines 78-80: the handler. *)
Definition handler (e : string) : Py unit :=
  print ("❌ Database error: " ++ e) ;;
  exit 1.

(** The whole script, lines 7-80. *)
Definition check_schema (environ : Environ) : Py unit :=
  let DATABASE_URL := getenv "DATABASE_URL" environ in
  (if negb (truthy_str DATABASE_URL)
   then print "❌ DATABASE_URL not found in environment" ;; exit 1
   else ret tt) ;;
  print "🔍 Checking post_attribution table schema..." ;;
  try_except (try_body DATABASE_URL) handler.

(** One run of the script as a process: what it printed and called, and how
    it ended. *)
Definition run (environ : Environ) (d : Driver) : list Event * Outcome :=
  let (events, r) := check_schema environ d in (events, outcome_of r).

Definition events_of (environ : Environ) (d : Driver) : list Event :=
  fst (run environ d).

Definition outcome (environ : Environ) (d : Driver) : Outcome :=
  snd (run environ d).

(** ** PostgreSQL behind the driver *)

(** The cells of a column, by row number, [None] for SQL NULL.  Four column
    types are modelled: [integer], [numeric] (finite values),
    [timestamp with time zone] and [text]. *)
Inductive ColumnData :=
| IntegerData (cells : nat -> option Z)
| NumericData (cells : nat -> option Q)
| TimestampData (cells : nat -> option Datetime)
| TextData (cells : nat -> option string).

Record Column := {
  name : string;
  nullable : bool;
  data : ColumnData
}.

(** The table [post_attribution]: its columns in physical order and the
    number of its rows; row [i] holds cell [i] of every column. *)
Record Table := {
  table_columns : list Column;
  table_rows : nat
}.

(** What the connection string points at: a host that refuses the
    connection with a message, or a database in which [post_attribution]
    exists or not, with the server's clock (microseconds since the epoch). *)
Inductive Server :=
| Unreachable (msg : string)
| Database (post_attribution : option Table) (now : Z).

Definition type_name (c : ColumnData) : string :=
  match c with
  | IntegerData _ => "integer"
  | NumericData _ => "numeric"
  | TimestampData _ => "timestamp with time zone"
  | TextData _ => "text"
  end.

(** The catalog statement: one descriptor per column, in physical order. *)
Definition catalog (t : Table) : list ColumnDescriptor :=
  map (fun c => {| column_name := name c;
                   data_type := type_name (data c);
                   is_nullable := if nullable c then "YES" else "NO" |})
      (table_columns t).

Fixpoint find_column (col : string) (cols : list Column) : option ColumnData :=
  match cols with
  | [] => None
  | c :: rest => if String.eqb (name c) col then Some (data c) else find_column col rest
  end.

(** The double quote. *)
Definition dquote : string := String "034"%char EmptyString.

Definition undefined_column (col : string) : string :=
  "column " ++ dquote ++ col ++ dquote ++ " does not exist".

Definition undefined_table : string :=
  "relation " ++ dquote ++ "post_attribution" ++ dquote ++ " does not exist".

(** [COALESCE(col, 0)] row by row, for a column of a type that can be
    matched with the integer literal; the error of the server otherwise
    (its primary message). *)
Definition coalesce_zero (col : string) (cols : list Column)
  : string + (nat -> Q) :=
  match find_column col cols with
  | None => inl (undefined_column col)
  | Some (IntegerData cells) =>
      inr (fun i => match cells i with Some n => inject_Z n | None => 0%Q end)
  | Some (NumericData cells) =>
      inr (fun i => match cells i with Some q => q | None => 0%Q end)
  | Some c =>
      inl ("COALESCE types " ++ type_name c ++ " and integer cannot be matched")
  end.

(** [posted_at] as the target list ([MAX]) and the [WHERE] clause need it:
    the column must exist, and be one that compares with
    [NOW() - INTERVAL '7 days']. *)
Definition posted_at_cells (cols : list Column)
  : string + (nat -> option Datetime) :=
  match find_column "posted_at" cols with
  | None => inl (undefined_column "posted_at")
  | Some (TimestampData cells) => inr cells
  | Some c =>
      inl ("operator does not exist: " ++ type_name c ++ " > timestamp with time zone")
  end.

(** [INTERVAL '7 days'], in microseconds. *)
Definition seven_days : Z := 7 * 24 * 60 * 60 * 1000000.

(** [WHERE posted_at > NOW() - INTERVAL '7 days'] on row [i]; a NULL
    [posted_at] does not pass. *)
Definition recent (now : Z) (posted_at : nat -> option Datetime) (i : nat) : bool :=
  match posted_at i with
  | Some t => now - seven_days <? instant t
  | None => false
  end.

(** The rows of the 7-day window, by row number. *)
Definition window (now : Z) (posted_at : nat -> option Datetime) (rows : nat) : list nat :=
  filter (recent now posted_at) (seq 0 rows).

Definition Qsum (l : list Q) : Q := fold_right Qplus 0%Q l.

(** [AVG] over the values of the selected rows: NULL over no row, the
    exact mean otherwise (the server's rounding of the quotient to its
    display scale is left out), handed to Python as a [Decimal]. *)
Definition sql_avg (values : list Q) : PyNumber :=
  match values with
  | [] => PyNone
  | _ => PyDecimal (Qred (Qsum values / inject_Z (Z.of_nat (List.length values))))
  end.

(** [MAX] over the non-NULL values of the selected rows. *)
Fixpoint sql_max (values : list (option Datetime)) : option Datetime :=
  match values with
  | [] => None
  | v :: rest =>
      match v, sql_max rest with
      | Some t, Some u => Some (if instant t <? instant u then u else t)
      | Some t, None => Some t
      | None, m => m
      end
  end.

(** The 7-day aggregate over a table: the server's error, or its one row.
    The target list is analysed left to right, then the [WHERE] clause. *)
Definition sql_stats (t : Table) (now : Z) : string + StatsRow :=
  match coalesce_zero "engagement_rate" (table_columns t) with
  | inl msg => inl msg
  | inr engagement_rate =>
  match coalesce_zero "impressions" (table_columns t) with
  | inl msg => inl msg
  | inr impressions =>
  match coalesce_zero "followers_gained" (table_columns t) with
  | inl msg => inl msg
  | inr followers_gained =>
  match posted_at_cells (table_columns t) with
  | inl msg => inl msg
  | inr posted_at =>
      let rows := window now posted_at (table_rows t) in
      inr {| total_posts := Z.of_nat (List.length rows);
             avg_engagement := sql_avg (map engagement_rate rows);
             avg_views := sql_avg (map impressions rows);
             avg_followers := sql_avg (map followers_gained rows);
             most_recent_post := sql_max (map posted_at rows) |}
  end end end end.

(** psycopg2 in front of a server: which calls of the script raise, and what
    the three statements return. *)
Definition psycopg2 (s : Server) : Driver :=
  match s with
  | Unreachable msg =>
      {| fault := fun site => match site with AtConnect => Some msg | _ => None end;
         catalog_rows := [];
         count_row := None;
         stats_row := None |}
  | Database None _ =>
      {| fault := fun site =>
           match site with
           | AtExecCount | AtExecStats => Some undefined_table
           | _ => None
           end;
         catalog_rows := [];
         count_row := None;
         stats_row := None |}
  | Database (Some t) now =>
      {| fault := fun site =>
           match site with
           | AtExecStats =>
               match sql_stats t now with inl msg => Some msg | inr _ => None end
           | _ => None
           end;
         catalog_rows := catalog t;
         count_row := Some (Z.of_nat (table_rows t));
         stats_row :=
           match sql_stats t now with inl _ => None | inr row => Some row end |}
  end.

(** * Vocabulary of the properties *)

(** ** Events *)

(** [l] ends with [suffix]. *)
Definition ends_with {A} (suffix l : list A) : Prop := exists pre, l = (pre ++ suffix)%list.

(** The script calls the driver at [site]. *)
Definition called (site : Site) (events : list Event) : Prop :=
  exists arg, In (Call site arg) events.

(** [t], then the events of [x]. *)
Definition prepend {A} (t : list Event) (x : list Event * Result A)
  : list Event * Result A :=
  ((t ++ fst x)%list, snd x).

(** What the handler adds to the events of the body. *)
Definition error_report {A} (r : Result A) : list Event :=
  match r with
  | Raise (Exception msg) => [Print ("❌ Database error: " ++ msg)]
  | _ => []
  end.

(** ** How a piece of the script ends *)

(** Every call of [m] that faults is the last event of [m], and [m] ends on
    the exception of that fault. *)
Definition faults_surface (d : Driver) {A} (m : Py A) : Prop :=
  forall site arg msg,
    In (Call site arg) (fst (m d)) ->
    fault d site = Some msg ->
    snd (m d) = Raise (Exception msg) /\ ends_with [Call site arg] (fst (m d)).

(** [m] leaves through [exit] with status 1 only. *)
Definition exits_one (d : Driver) {A} (m : Py A) : Prop :=
  forall code, snd (m d) = Raise (SystemExit code) -> code = 1.

(** When [m] returns, its last events are [suffix]. *)
Definition returns_after (suffix : list Event) (d : Driver) {A} (m : Py A) : Prop :=
  forall a, snd (m d) = Return a -> ends_with suffix (fst (m d)).

(** ** The run up to the row count *)

(** The connection, the cursor and the catalog statement go through. *)
Definition catalog_answers (d : Driver) : Prop :=
  fault d AtConnect = None /\ fault d AtCursor = None /\
  fault d AtExecColumns = None /\ fault d AtFetchColumns = None.

(** The catalog statement and the row count go through. *)
Definition count_answers (d : Driver) : Prop :=
  catalog_answers d /\ fault d AtExecCount = None /\ fault d AtFetchCount = None.

(** Lines 43-47 as events. *)
Definition missing_report (columns : list ColumnDescriptor) : list Event :=
  match missing_columns columns with
  | [] => [Print (nl ++ "✅ All essential columns exist!")]
  | missing =>
      [Print (nl ++ "❌ MISSING ESSENTIAL COLUMNS: " ++ str_list missing);
       Print "🔧 These columns are required for learning loops to work!"]
  end.

(** The events of lines 16-52 when the table exists and the calls go
    through. *)
Definition inspection (url : string) (columns : list ColumnDescriptor) (count : Z)
  : list Event :=
  ([Call AtConnect url;
    Call AtCursor EmptyString;
    Call AtExecColumns SQL_COLUMNS;
    Call AtFetchColumns EmptyString;
    Print ("�� Found " ++ str_int (Z.of_nat (List.length columns)) ++
           " columns in post_attribution table:")] ++
   map (fun col => Print (describe col)) columns ++
   missing_report columns ++
   [Call AtExecCount SQL_COUNT;
    Call AtFetchCount EmptyString;
    Print (nl ++ "📈 Total posts in post_attribution: " ++ str_int count)])%list.

(** Lines 54-76: what follows the row count. *)
Definition after_count (count : Z) : Py unit :=
  (if 0 <? count
   then execute AtExecStats SQL_STATS ;;
        stats <- fetchone_stats ;;
        report_stats stats
   else ret tt) ;;
  cur_close ;;
  conn_close.

(** ** The 7-day aggregate *)

(** The names of the columns of a table, in physical order. *)
Definition column_names (t : Table) : list string := map name (table_columns t).



(** The rows of the table in the 7-day window. *)
Definition recent_rows (t : Table) (now : Z) : list nat :=
  match posted_at_cells (table_columns t) with
  | inr posted_at => window now posted_at (table_rows t)
  | inl _ => []
  end.

(** The aggregate over an empty window. *)
Definition null_row : StatsRow :=
  {| total_posts := 0;
     avg_engagement := PyNone;
     avg_views := PyNone;
     avg_followers := PyNone;
     most_recent_post := None |}.

(** [float(v or 0)]. *)
Definition float_or_zero (v : PyNumber) : float :=
  match py_float (or_zero v) with
  | Some x => x
  | None => zero
  end.

(** The lines of the 7-day report. *)
Definition stats_lines (row : StatsRow) : list Event :=
  [Print "📊 Last 7 days stats:";
   Print ("  - Posts: " ++ str_int (total_posts row));
   Print ("  - Avg Engagement: " ++
          format_f 2 (float_or_zero (avg_engagement row) * 100)%float ++ "%");
   Print ("  - Avg Views: " ++ format_f 0 (float_or_zero (avg_views row)));
   Print ("  - Avg Followers: " ++ format_f 1 (float_or_zero (avg_followers row)));
   Print ("  - Most Recent: " ++ str_datetime (most_recent_post row))].

(** ** Fixed-point numerals *)









(** ** Calls and lines of a run *)

(** The driver calls among some events, in order. *)
Fixpoint sites_of (events : list Event) : list Site :=
  match events with
  | [] => []
  | Call site _ :: rest => site :: sites_of rest
  | Print _ :: rest => sites_of rest
  end.


(** The place of a call in the source, from the top. *)
Definition site_index (site : Site) : nat :=
  match site with
  | AtConnect => 0
  | AtCursor => 1
  | AtExecColumns => 2
  | AtFetchColumns => 3
  | AtExecCount => 4
  | AtFetchCount => 5
  | AtExecStats => 6
  | AtFetchStats => 7
  | AtCursorClose => 8
  | AtConnClose => 9
  end.

(** [a] comes before [b] in the source. *)
Definition earlier (a b : Site) : Prop := (site_index a < site_index b)%nat.

(** The calls of [m] are made in the order of the source, each once at
    most, all of them at places from [lo] up to [hi], [hi] left out. *)
Definition within (lo hi : nat) (d : Driver) {A} (m : Py A) : Prop :=
  StronglySorted earlier (sites_of (fst (m d))) /\
  Forall (fun site => (lo <= site_index site < hi)%nat) (sites_of (fst (m d))).

(** Every event of [m] satisfies [ok]. *)
Definition events_satisfy (ok : Event -> Prop) (d : Driver) {A} (m : Py A) : Prop :=
  Forall ok (fst (m d)).

(** When [m] returns, every event of [m] satisfies [ok]. *)
Definition returning_satisfy (ok : Event -> Prop) (d : Driver) {A} (m : Py A) : Prop :=
  (exists a, snd (m d) = Return a) -> Forall ok (fst (m d)).

(** When [m] leaves through [exit], its last event is the line [text]. *)
Definition exits_after (text : string) (d : Driver) {A} (m : Py A) : Prop :=
  forall code, snd (m d) = Raise (SystemExit code) -> ends_with [Print text] (fst (m d)).

(** When [m] closes the cursor, and neither release raises, [m] returns. *)
Definition closes_on_return (d : Driver) {A} (m : Py A) : Prop :=
  called AtCursorClose (fst (m d)) \/ called AtConnClose (fst (m d)) ->
  fault d AtCursorClose = None ->
  fault d AtConnClose = None ->
  exists a, snd (m d) = Return a.

(** [m] behaves the same in front of [d] and of [d']. *)
Definition agree (d d' : Driver) {A} (m : Py A) : Prop := m d = m d'.

(** The driver [d] answering the catalog statement with [columns]. *)
Definition with_catalog (columns : list ColumnDescriptor) (d : Driver) : Driver :=
  {| fault := fault d;
     catalog_rows := columns;
     count_row := count_row d;
     stats_row := stats_row d |}.

(** An event that is not a release of the cursor or of the connection. *)
Definition not_a_release (e : Event) : Prop :=
  match e with
  | Call AtCursorClose _ | Call AtConnClose _ => False
  | _ => True
  end.

(** The three lines that report a failure. *)
Definition failure_line (text : string) : Prop :=
  text = "❌ DATABASE_URL not found in environment" \/
  text = "❌ post_attribution table doesn't exist!" \/
  exists msg, text = "❌ Database error: " ++ msg.

(** An event that is not a failure line. *)
Definition not_a_failure (e : Event) : Prop :=
  match e with
  | Print text => ~ failure_line text
  | Call _ _ => True
  end.

(** ** The end of a run *)

(** Lines 50-76: what follows the report on the essential columns. *)
Definition after_report : Py unit :=
  execute AtExecCount SQL_COUNT ;;
  row <- fetchone_count ;;
  count <- subscript row ;;
  print (nl ++ "📈 Total posts in post_attribution: " ++ str_int count) ;;
  after_count count.





(** ** The report on the essential columns *)

(** Line 47. *)
Definition all_exist_line : string := nl ++ "✅ All essential columns exist!".

(** Line 44. *)
Definition missing_line (missing : list string) : string :=
  nl ++ "❌ MISSING ESSENTIAL COLUMNS: " ++ str_list missing.

(** Line 45. *)
Definition required_line : string :=
  "🔧 These columns are required for learning loops to work!".

(** Every essential column is a column of the catalog answer. *)
Definition all_essential (columns : list ColumnDescriptor) : Prop :=
  forall col, In col essential_columns -> In col (existing_columns columns).

(** An event that is none of the lines 44, 45 and 47. *)
Definition not_a_verdict (e : Event) : Prop :=
  match e with
  | Print text =>
      text <> all_exist_line /\ text <> required_line /\
      forall missing, text <> missing_line missing
  | Call _ _ => True
  end.

(** ** The listing *)


(** ** Sample data *)

(** An environment that sets DATABASE_URL. *)
Definition configured : Environ :=
  [("HOME", "/root"); ("DATABASE_URL", "postgresql://localhost/xbot")].

Definition at_noon : Datetime :=
  {| instant := 1700000000000000; isoformat := "2023-11-14 22:13:20+00:00" |}.

Definition full_table (engagement impressions followers : nat -> option Q)
    (posted_at : nat -> option Datetime) (rows : nat) : Table :=
  {| table_columns :=
       [ {| name := "post_id"; nullable := false;
            data := TextData (fun i => Some (str_int (Z.of_nat i))) |};
         {| name := "posted_at"; nullable := true; data := TimestampData posted_at |};
         {| name := "engagement_rate"; nullable := true; data := NumericData engagement |};
         {| name := "impressions"; nullable := true; data := NumericData impressions |};
         {| name := "followers_gained"; nullable := true; data := NumericData followers |};
         {| name := "hook_pattern"; nullable := true; data := TextData (fun _ => None) |};
         {| name := "topic"; nullable := true; data := TextData (fun _ => None) |};
         {| name := "generator_used"; nullable := true; data := TextData (fun _ => None) |} ];
     table_rows := rows |}.

(** The table of P3: [engagement_rate] and [topic] only, here with one
    row. *)
Definition two_column_table : Table :=
  {| table_columns :=
       [ {| name := "engagement_rate"; nullable := true;
            data := NumericData (fun _ => Some (1 # 10)) |};
         {| name := "topic"; nullable := true;
            data := TextData (fun _ => Some "sleep") |} ];
     table_rows := 1 |}.

(** The table of P3 without a row, its columns the other way round. *)
Definition empty_two_column_table : Table :=
  {| table_columns :=
       [ {| name := "topic"; nullable := true; data := TextData (fun _ => None) |};
         {| name := "engagement_rate"; nullable := false;
            data := NumericData (fun _ => None) |} ];
     table_rows := 0 |}.

(** Three rows: a NULL engagement_rate, 0.1, and an old row with 0.9. *)
Definition three_rows : Table :=
  full_table
    (fun i => match i with O => None | 1%nat => Some (1 # 10) | _ => Some (9 # 10) end)
    (fun i => match i with 2%nat => None | _ => Some (300 # 1) end)
    (fun _ => Some (2 # 1))
    (fun i => match i with
              | 2%nat => Some {| instant := 1600000000000000;
                                 isoformat := "2020-09-13 12:26:40+00:00" |}
              | _ => Some at_noon
              end)
    3.

(** An aggregate row: 0.05, 1250.5 and 0.25. *)
Definition sample_row : StatsRow :=
  {| total_posts := 4;
     avg_engagement := PyDecimal (1 # 20);
     avg_views := PyDecimal (2501 # 2);
     avg_followers := PyDecimal (1 # 4);
     most_recent_post := Some at_noon |}.

(** * Properties *)

(** ** Running the script *)

Lemma for_each_print (columns : list ColumnDescriptor) (d : Driver) :
  for_each columns (fun col => print (describe col)) d =
  (map (fun col => Print (describe col)) columns, Return tt).
Proof.
  induction columns as [|col columns IH]; [reflexivity|].
  cbn [for_each]. unfold bind at 1. cbn [print]. rewrite IH. reflexivity.
Qed.

Lemma truthy_url (url : string) : url <> EmptyString -> truthy_str (Some url) = true.
Proof. destruct url; [congruence | reflexivity]. Qed.

(** [float(v or 0)] never raises. *)
Lemma float_or_zero_total (v : PyNumber) : exists x, py_float (or_zero v) = Some x.
Proof.
  unfold or_zero. destruct (truthy_number v) eqn:Hv; [|eexists; reflexivity].
  destruct v; try discriminate; eexists; reflexivity.
Qed.

Lemma float_of_or_zero (v : PyNumber) :
  float_of (or_zero v) = ret (float_or_zero v).
Proof.
  unfold float_of, float_or_zero.
  destruct (float_or_zero_total v) as [x ->]. reflexivity.
Qed.

Lemma ends_with_refl {A} (l : list A) : ends_with l l.
Proof. exists []. reflexivity. Qed.

Lemma ends_with_cons {A} (x : A) (suffix l : list A) :
  ends_with suffix l -> ends_with suffix (x :: l).
Proof. intros [pre ->]. exists (x :: pre). reflexivity. Qed.

Lemma ends_with_app {A} (l1 suffix l : list A) :
  ends_with suffix l -> ends_with suffix (l1 ++ l)%list.
Proof. intros [pre ->]. exists (l1 ++ pre)%list. apply app_assoc. Qed.

Lemma no_call_in_listing (site : Site) (arg : string) (columns : list ColumnDescriptor) :
  ~ In (Call site arg) (map (fun col => Print (describe col)) columns).
Proof.
  intros H. apply in_map_iff in H. destruct H as [col [H _]]. discriminate.
Qed.

Lemma no_call_in_error_report {A} (r : Result A) (site : Site) (arg : string) :
  ~ In (Call site arg) (error_report r).
Proof. destruct r as [a|[msg|code]]; cbn; intuition discriminate. Qed.

(** The laws of [bind] on the pieces of the script, and how the three
    properties of a piece compose. *)
Section Composition.

Context (d : Driver).

Lemma bind_eval {A B} (m : Py A) (k : A -> Py B) :
  bind m k d =
  match snd (m d) with
  | Return a => ((fst (m d) ++ fst (k a d))%list, snd (k a d))
  | Raise e => (fst (m d), Raise e)
  end.
Proof.
  unfold bind. destruct (m d) as [t1 [a|e]]; cbn [fst snd]; [|reflexivity].
  destruct (k a d); reflexivity.
Qed.

Lemma prepend_nil {A} (x : list Event * Result A) : prepend [] x = x.
Proof. destruct x. reflexivity. Qed.

Lemma prepend_prepend {A} (t1 t2 : list Event) (x : list Event * Result A) :
  prepend t1 (prepend t2 x) = prepend (t1 ++ t2) x.
Proof. unfold prepend. cbn [fst snd]. rewrite app_assoc. reflexivity. Qed.

Lemma bind_emit {A B} (m : Py A) (k : A -> Py B) (t : list Event) (a : A) :
  m d = (t, Return a) -> bind m k d = prepend t (k a d).
Proof. intros H. unfold bind, prepend. rewrite H. destruct (k a d). reflexivity. Qed.

Lemma bind_stop {A B} (m : Py A) (k : A -> Py B) (t : list Event) (e : PyExc) :
  m d = (t, Raise e) -> bind m k d = (t, Raise e).
Proof. intros H. unfold bind. rewrite H. reflexivity. Qed.

Lemma bind_bind {A B C} (m : Py A) (k1 : A -> Py B) (k2 : B -> Py C) :
  bind (bind m k1) k2 d = bind m (fun a => bind (k1 a) k2) d.
Proof.
  unfold bind. destruct (m d) as [t1 [a|e]]; [|reflexivity].
  destruct (k1 a d) as [t2 [b|e]]; [|reflexivity].
  destruct (k2 b d) as [t3 r]. rewrite app_assoc. reflexivity.
Qed.

Lemma bind_ret {A B} (a : A) (k : A -> Py B) : bind (ret a) k d = k a d.
Proof. rewrite (bind_emit _ _ [] a eq_refl). apply prepend_nil. Qed.

Lemma bind_result_set {A B} (rows : Driver -> A) (k : A -> Py B) :
  bind (result_set rows) k d = k (rows d) d.
Proof. rewrite (bind_emit _ _ [] (rows d) eq_refl). apply prepend_nil. Qed.

Lemma bind_print {B} (text : string) (k : unit -> Py B) :
  bind (print text) k d = prepend [Print text] (k tt d).
Proof. apply bind_emit. reflexivity. Qed.

Lemma bind_call {B} (site : Site) (arg : string) (k : unit -> Py B) :
  fault d site = None ->
  bind (call site arg) k d = prepend [Call site arg] (k tt d).
Proof. intros H. apply bind_emit. unfold call. rewrite H. reflexivity. Qed.

Lemma bind_call_fault {B} (site : Site) (arg msg : string) (k : unit -> Py B) :
  fault d site = Some msg ->
  bind (call site arg) k d = ([Call site arg], Raise (Exception msg)).
Proof. intros H. apply bind_stop. unfold call. rewrite H. reflexivity. Qed.

Lemma bind_listing {B} (columns : list ColumnDescriptor) (k : unit -> Py B) :
  bind (for_each columns (fun col => print (describe col))) k d =
  prepend (map (fun col => Print (describe col)) columns) (k tt d).
Proof. apply bind_emit. apply for_each_print. Qed.

Lemma surface_plain {A} (m : Py A) :
  (forall site arg, ~ In (Call site arg) (fst (m d))) -> faults_surface d m.
Proof. intros H site arg msg Hin. destruct (H _ _ Hin). Qed.

Lemma surface_ret {A} (a : A) : faults_surface d (ret a).
Proof. apply surface_plain. intros ? ? []. Qed.

Lemma surface_raise {A} (e : PyExc) : faults_surface d (@raise A e).
Proof. apply surface_plain. intros ? ? []. Qed.

Lemma surface_result_set {A} (rows : Driver -> A) : faults_surface d (result_set rows).
Proof. apply surface_plain. intros ? ? []. Qed.

Lemma surface_print (text : string) : faults_surface d (print text).
Proof. apply surface_plain. intros ? ? [H|[]]. discriminate. Qed.

Lemma surface_call (site : Site) (arg : string) : faults_surface d (call site arg).
Proof.
  intros site' arg' msg [H|[]] Hf. injection H as <- <-.
  unfold call. cbn [fst snd]. rewrite Hf. split; [reflexivity | apply ends_with_refl].
Qed.

Lemma surface_bind {A B} (m : Py A) (k : A -> Py B) :
  faults_surface d m -> (forall a, faults_surface d (k a)) ->
  faults_surface d (bind m k).
Proof.
  intros Hm Hk site arg msg. rewrite bind_eval.
  destruct (snd (m d)) as [a|e] eqn:Hr; cbn [fst snd].
  - intros Hin Hf. apply in_app_or in Hin. destruct Hin as [Hin|Hin].
    + destruct (Hm _ _ _ Hin Hf) as [Hraise _]. congruence.
    + destruct (Hk a _ _ _ Hin Hf) as [Hraise Hend]. split; [exact Hraise|].
      apply ends_with_app. exact Hend.
  - intros Hin Hf. destruct (Hm _ _ _ Hin Hf) as [Hraise Hend].
    split; [congruence | exact Hend].
Qed.

Lemma surface_for_each {A} (l : list A) (body : A -> Py unit) :
  (forall x, faults_surface d (body x)) -> faults_surface d (for_each l body).
Proof.
  intros Hbody. induction l as [|x l IH]; cbn [for_each].
  - apply surface_ret.
  - apply surface_bind; [apply Hbody | intros _; exact IH].
Qed.

Lemma exits_one_bind {A B} (m : Py A) (k : A -> Py B) :
  exits_one d m -> (forall a, exits_one d (k a)) -> exits_one d (bind m k).
Proof.
  intros Hm Hk code. rewrite bind_eval.
  destruct (snd (m d)) as [a|e] eqn:Hr; cbn [snd].
  - apply Hk.
  - intros He. apply Hm. congruence.
Qed.

Lemma exits_one_quiet {A} (m : Py A) :
  (forall code, snd (m d) <> Raise (SystemExit code)) -> exits_one d m.
Proof. intros H code He. destruct (H _ He). Qed.

Lemma exits_one_ret {A} (a : A) : exits_one d (ret a).
Proof. apply exits_one_quiet. discriminate. Qed.

Lemma exits_one_result_set {A} (rows : Driver -> A) : exits_one d (result_set rows).
Proof. apply exits_one_quiet. discriminate. Qed.

Lemma exits_one_print (text : string) : exits_one d (print text).
Proof. apply exits_one_quiet. discriminate. Qed.

Lemma exits_one_call (site : Site) (arg : string) : exits_one d (call site arg).
Proof.
  apply exits_one_quiet. intros code. unfold call. cbn [snd].
  destruct (fault d site); discriminate.
Qed.

Lemma exits_one_raise {A} (msg : string) : exits_one d (@raise A (Exception msg)).
Proof. apply exits_one_quiet. discriminate. Qed.

Lemma exits_one_exit {A} : exits_one d (@exit A 1).
Proof. intros code [= <-]. reflexivity. Qed.

Lemma exits_one_for_each {A} (l : list A) (body : A -> Py unit) :
  (forall x, exits_one d (body x)) -> exits_one d (for_each l body).
Proof.
  intros Hbody. induction l as [|x l IH]; cbn [for_each].
  - apply exits_one_quiet. discriminate.
  - apply exits_one_bind; [apply Hbody | intros _; exact IH].
Qed.

Lemma returns_after_bind {A B} (suffix : list Event) (m : Py A) (k : A -> Py B) :
  (forall a, returns_after suffix d (k a)) -> returns_after suffix d (bind m k).
Proof.
  intros Hk b. rewrite bind_eval.
  destruct (snd (m d)) as [a|e]; cbn [fst snd]; [|discriminate].
  intros Hr. apply ends_with_app. exact (Hk a b Hr).
Qed.

Lemma returns_after_calls (s1 s2 : Site) (a1 a2 : string) :
  returns_after [Call s1 a1; Call s2 a2] d (call s1 a1 ;; call s2 a2).
Proof.
  intros a. unfold call, bind. cbn [fst snd].
  destruct (fault d s1); [discriminate|].
  destruct (fault d s2); [discriminate|].
  intros _. apply ends_with_refl.
Qed.

End Composition.

Ltac script_unfold :=
  unfold events_of, outcome, run, check_schema, try_except, try_body, handler,
    report_stats, connect, cursor, execute, fetchall, fetchone_count,
    fetchone_stats, cur_close, conn_close, subscript, float_of, exit, raise,
    print, call, result_set, bind, ret.

Ltac script_step := cbn [app fst snd outcome_of truthy_str negb].

Ltac step :=
  first
    [ rewrite bind_bind | rewrite bind_ret | rewrite bind_result_set
    | rewrite bind_print | rewrite bind_listing
    | rewrite bind_call by assumption
    | rewrite prepend_prepend ];
  cbv beta.

Ltac surface :=
  repeat first
    [ apply surface_ret | apply surface_raise | apply surface_print
    | apply surface_call | apply surface_result_set | apply surface_for_each; intros
    | apply surface_bind; intros
    | match goal with
      | |- faults_surface _ (match ?x with _ => _ end) => destruct x
      | |- faults_surface _ (if ?b then _ else _) => destruct b
      end ].

Ltac exits :=
  repeat first
    [ apply exits_one_ret | apply exits_one_raise | apply exits_one_exit
    | apply exits_one_print | apply exits_one_call | apply exits_one_result_set
    | apply exits_one_for_each; intros
    | apply exits_one_bind; intros
    | match goal with
      | |- exits_one _ (match ?x with _ => _ end) => destruct x
      | |- exits_one _ (if ?b then _ else _) => destruct b
      end ].

Lemma surface_try_body (d : Driver) (url : string) :
  faults_surface d (try_body (Some url)).
Proof.
  unfold try_body, report_stats, connect, cursor, execute, fetchall,
    fetchone_count, fetchone_stats, cur_close, conn_close, subscript, float_of,
    exit.
  surface.
Qed.

Lemma exits_one_try_body (d : Driver) (url : string) :
  exits_one d (try_body (Some url)).
Proof.
  unfold try_body, report_stats, connect, cursor, execute, fetchall,
    fetchone_count, fetchone_stats, cur_close, conn_close, subscript, float_of.
  exits.
Qed.

Lemma released_try_body (d : Driver) (url : string) :
  returns_after [Call AtCursorClose EmptyString; Call AtConnClose EmptyString] d
    (try_body (Some url)).
Proof.
  unfold try_body, cur_close, conn_close.
  repeat first [apply returns_after_calls | apply returns_after_bind; intros].
Qed.

(** The script once DATABASE_URL is set: the banner, then the guarded
    body. *)
Lemma check_schema_configured (environ : Environ) (url : string) (d : Driver) :
  getenv "DATABASE_URL" environ = Some url ->
  url <> EmptyString ->
  check_schema environ d =
  (Print "🔍 Checking post_attribution table schema..."
     :: fst (try_except (try_body (Some url)) handler d),
   snd (try_except (try_body (Some url)) handler d)).
Proof.
  intros Henv Hurl. unfold check_schema. rewrite Henv, (truthy_url url Hurl).
  cbn [negb]. unfold bind, ret, print.
  destruct (try_except _ _ d). reflexivity.
Qed.

Lemma try_except_eval (d : Driver) (url : string) :
  try_except (try_body (Some url)) handler d =
  match snd (try_body (Some url) d) with
  | Raise (Exception msg) =>
      ((fst (try_body (Some url) d) ++ [Print ("❌ Database error: " ++ msg)])%list,
       Raise (SystemExit 1))
  | r => (fst (try_body (Some url) d), r)
  end.
Proof.
  unfold try_except. destruct (try_body (Some url) d) as [t [a|[msg|code]]]; reflexivity.
Qed.

(** A [SystemExit] raised in the body of a [try] passes its
    [except Exception] handler. *)
Lemma try_except_SystemExit {A} (body : Py A) (h : string -> Py A) (d : Driver)
    (t : list Event) (code : Z) :
  body d = (t, Raise (SystemExit code)) ->
  try_except body h d = (t, Raise (SystemExit code)).
Proof. intros H. unfold try_except. rewrite H. reflexivity. Qed.

Lemma run_configured (environ : Environ) (url : string) (d : Driver) :
  getenv "DATABASE_URL" environ = Some url ->
  url <> EmptyString ->
  run environ d =
  (Print "🔍 Checking post_attribution table schema..."
     :: fst (try_except (try_body (Some url)) handler d),
   outcome_of (snd (try_except (try_body (Some url)) handler d))).
Proof.
  intros Henv Hurl. unfold run. rewrite (check_schema_configured _ _ _ Henv Hurl).
  reflexivity.
Qed.

Lemma events_configured (environ : Environ) (url : string) (d : Driver) :
  getenv "DATABASE_URL" environ = Some url ->
  url <> EmptyString ->
  events_of environ d =
  (Print "🔍 Checking post_attribution table schema..."
     :: fst (try_body (Some url) d) ++ error_report (snd (try_body (Some url) d)))%list.
Proof.
  intros Henv Hurl. unfold events_of.
  rewrite (run_configured _ _ _ Henv Hurl), try_except_eval.
  destruct (try_body (Some url) d) as [t [a|[msg|code]]]; cbn [fst snd error_report];
    try rewrite app_nil_r; reflexivity.
Qed.

Lemma outcome_configured (environ : Environ) (url : string) (d : Driver) :
  getenv "DATABASE_URL" environ = Some url ->
  url <> EmptyString ->
  outcome environ d =
  match snd (try_body (Some url) d) with
  | Return _ => Exited 0
  | Raise _ => Exited 1
  end.
Proof.
  intros Henv Hurl. unfold outcome.
  rewrite (run_configured _ _ _ Henv Hurl), try_except_eval.
  pose proof (exits_one_try_body d url) as Hexit. unfold exits_one in Hexit.
  destruct (try_body (Some url) d) as [t [a|[msg|code]]]; cbn [fst snd outcome_of] in *;
    try reflexivity.
  rewrite (Hexit code eq_refl). reflexivity.
Qed.

Lemma outcome_zero_or_one (environ : Environ) (d : Driver) :
  outcome environ d = Exited 0 \/ outcome environ d = Exited 1.
Proof.
  destruct (truthy_str (getenv "DATABASE_URL" environ)) eqn:E.
  - destruct (getenv "DATABASE_URL" environ) as [url|] eqn:Henv; [|discriminate].
    assert (Hurl : url <> EmptyString) by (intros ->; discriminate).
    rewrite (outcome_configured _ _ d Henv Hurl).
    destruct (snd (try_body (Some url) d)); auto.
  - right. unfold outcome, run, check_schema. rewrite E. reflexivity.
Qed.

Lemma report_stats_lines (d : Driver) (row : StatsRow) :
  report_stats (Some row) d = (stats_lines row, Return tt).
Proof.
  unfold report_stats, subscript.
  repeat first [step | rewrite float_of_or_zero].
  reflexivity.
Qed.

Lemma report_null_row (d : Driver) :
  report_stats (Some null_row) d =
    ([Print "📊 Last 7 days stats:";
      Print "  - Posts: 0";
      Print "  - Avg Engagement: 0.00%";
      Print "  - Avg Views: 0";
      Print "  - Avg Followers: 0.0";
      Print "  - Most Recent: None"],
     Return tt).
Proof. reflexivity. Qed.

Lemma try_body_counted (url : string) (d : Driver) (count : Z) :
  count_answers d ->
  catalog_rows d <> [] ->
  count_row d = Some count ->
  try_body (Some url) d = prepend (inspection url (catalog_rows d) count) (after_count count d).
Proof.
  intros ((H1 & H2 & H3 & H4) & H5 & H6) Hcols Hcount.
  unfold try_body, after_count, connect, cursor, execute, fetchall, fetchone_count,
    subscript, inspection, missing_report.
  do 6 step.
  destruct (catalog_rows d) as [|col columns]; [congruence|].
  do 3 step.
  destruct (missing_columns (col :: columns)); repeat step;
    rewrite Hcount; repeat step; repeat rewrite <- app_assoc; reflexivity.
Qed.

Lemma stats_not_in_inspection (url : string) (columns : list ColumnDescriptor)
    (count : Z) (arg : string) :
  ~ In (Call AtExecStats arg) (inspection url columns count).
Proof.
  unfold inspection, missing_report. intros H.
  repeat (apply in_app_or in H; destruct H as [H|H]).
  - cbn [In] in H. repeat (destruct H as [H|H]; [discriminate|]). exact H.
  - exact (no_call_in_listing _ _ _ H).
  - destruct (missing_columns columns); cbn [In] in H;
      repeat (destruct H as [H|H]; [discriminate|]); exact H.
  - cbn [In] in H. repeat (destruct H as [H|H]; [discriminate|]). exact H.
Qed.

Lemma in_inspection_tail (url : string) (columns : list ColumnDescriptor) (count : Z)
    (e : Event) :
  In e [Call AtExecCount SQL_COUNT; Call AtFetchCount EmptyString;
        Print (nl ++ "📈 Total posts in post_attribution: " ++ str_int count)] ->
  In e (inspection url columns count).
Proof. intros H. unfold inspection. do 3 (apply in_or_app; right). exact H. Qed.

Lemma in_inspection_report (url : string) (columns : list ColumnDescriptor) (count : Z)
    (e : Event) :
  In e (missing_report columns) -> In e (inspection url columns count).
Proof.
  intros H. unfold inspection. do 2 (apply in_or_app; right).
  apply in_or_app; left. exact H.
Qed.

Lemma after_count_issued (d : Driver) (count : Z) :
  0 < count -> In (Call AtExecStats SQL_STATS) (fst (after_count count d)).
Proof.
  intros Hc. apply Z.ltb_lt in Hc. unfold after_count. rewrite Hc.
  unfold execute. repeat rewrite bind_bind.
  destruct (fault d AtExecStats) as [msg|] eqn:Hf.
  - rewrite (bind_call_fault _ _ _ msg _ Hf). left. reflexivity.
  - rewrite (bind_call _ _ _ _ Hf). left. reflexivity.
Qed.

Lemma after_count_zero (d : Driver) :
  fault d AtCursorClose = None ->
  fault d AtConnClose = None ->
  after_count 0 d =
    ([Call AtCursorClose EmptyString; Call AtConnClose EmptyString], Return tt).
Proof.
  intros H1 H2. unfold after_count, cur_close, conn_close. cbn [Z.ltb Z.compare].
  repeat step. unfold call. rewrite H2. reflexivity.
Qed.

Lemma after_count_rejected (d : Driver) (count : Z) (msg : string) :
  0 < count ->
  fault d AtExecStats = Some msg ->
  after_count count d = ([Call AtExecStats SQL_STATS], Raise (Exception msg)).
Proof.
  intros Hc Hf. apply Z.ltb_lt in Hc. unfold after_count, execute. rewrite Hc.
  repeat rewrite bind_bind. apply bind_call_fault. exact Hf.
Qed.

Lemma after_count_stats (d : Driver) (count : Z) :
  called AtExecStats (fst (after_count count d)) <-> 0 < count.
Proof.
  unfold after_count, called. destruct (0 <? count) eqn:Hc.
  - apply Z.ltb_lt in Hc. split; [intros _; exact Hc | intros _].
    exists SQL_STATS. pose proof (after_count_issued d count Hc) as H.
    unfold after_count in H. apply Z.ltb_lt in Hc. rewrite Hc in H. exact H.
  - apply Z.ltb_ge in Hc. split; [|lia].
    intros [arg H]. exfalso. revert H. unfold cur_close, conn_close.
    rewrite bind_ret.
    destruct (fault d AtCursorClose) as [msg|] eqn:Hf1.
    + rewrite (bind_call_fault _ _ _ msg _ Hf1). cbn [fst In].
      intros [H|[]]; discriminate.
    + rewrite (bind_call _ _ _ _ Hf1). unfold call, prepend. cbn [fst snd app In].
      intros [H|[H|[]]]; discriminate.
Qed.

Lemma after_count_reported (d : Driver) (count : Z) (row : StatsRow)
    (lines : list Event) :
  0 < count ->
  fault d AtExecStats = None ->
  fault d AtFetchStats = None ->
  fault d AtCursorClose = None ->
  fault d AtConnClose = None ->
  stats_row d = Some row ->
  report_stats (Some row) d = (lines, Return tt) ->
  after_count count d =
    ((Call AtExecStats SQL_STATS :: Call AtFetchStats EmptyString :: lines ++
      [Call AtCursorClose EmptyString; Call AtConnClose EmptyString])%list,
     Return tt).
Proof.
  intros Hc H1 H2 H3 H4 Hrow Hrep. apply Z.ltb_lt in Hc.
  unfold after_count, execute, fetchone_stats, cur_close, conn_close. rewrite Hc.
  repeat step. rewrite Hrow, (bind_emit d _ _ lines tt Hrep).
  repeat step. unfold call. rewrite H4. unfold prepend. cbn [fst snd app].
  rewrite <- app_assoc. reflexivity.
Qed.

Lemma database_answers (t : Table) (now : Z) :
  count_answers (psycopg2 (Database (Some t) now)).
Proof. repeat split. Qed.

(** ** The configuration gate *)

(** C5: when DATABASE_URL is absent from the environment, whatever the
    database would do, the run consists of one printed line reporting the
    missing configuration and ends with exit status 1; no call is made on
    the database driver. *)
Theorem config_gate (environ : Environ) (d : Driver) :
  getenv "DATABASE_URL" environ = None ->
  run environ d = ([Print "❌ DATABASE_URL not found in environment"], Exited 1).
Proof.
  intros H. unfold run, check_schema. rewrite H. reflexivity.
Qed.

Lemma config_gate_witness :
  getenv "DATABASE_URL" [("HOME", "/root")] = None /\
  run [("HOME", "/root")] (psycopg2 (Database None 0)) =
    ([Print "❌ DATABASE_URL not found in environment"], Exited 1).
Proof.
  split; [reflexivity | apply config_gate; reflexivity].
Defined.

(** C8: when DATABASE_URL is present but empty, the run is the one of an
    environment without the variable: the missing-configuration line, exit
    status 1, and no call on the database driver. *)
Theorem empty_url_is_unset (environ : Environ) (d : Driver) :
  getenv "DATABASE_URL" environ = Some EmptyString ->
  run environ d = ([Print "❌ DATABASE_URL not found in environment"], Exited 1) /\
  run environ d = run [] d.
Proof.
  intros H. unfold run, check_schema. rewrite H. split; reflexivity.
Qed.

Lemma empty_url_is_unset_witness :
  getenv "DATABASE_URL" [("DATABASE_URL", EmptyString)] = Some EmptyString /\
  run [("DATABASE_URL", EmptyString)] (psycopg2 (Database None 0)) =
    ([Print "❌ DATABASE_URL not found in environment"], Exited 1).
Proof.
  split; [reflexivity |].
  apply (empty_url_is_unset [("DATABASE_URL", EmptyString)]). reflexivity.
Defined.

(** ** The catch-all handler *)

(** C6: with DATABASE_URL set, (1) whatever exception the guarded body
    raises is caught: the run is the banner, the events of the body, the
    line "Database error: " with the message of the exception, and exit
    status 1; (2) a call on the driver that raises is followed by that line
    and nothing else, with exit status 1; (3) every run ends with exit
    status 0 or 1, never on an uncaught exception; (4) the status is 0
    exactly when the body returns, and then the last two events are the
    closing of the cursor and of the connection. *)
Theorem generic_error_path (environ : Environ) (url : string) (d : Driver) :
  getenv "DATABASE_URL" environ = Some url ->
  url <> EmptyString ->
  (forall t msg,
      try_body (Some url) d = (t, Raise (Exception msg)) ->
      run environ d =
        ((Print "🔍 Checking post_attribution table schema..." :: t ++
          [Print ("❌ Database error: " ++ msg)])%list, Exited 1)) /\
  (forall site arg msg,
      In (Call site arg) (events_of environ d) ->
      fault d site = Some msg ->
      ends_with [Call site arg; Print ("❌ Database error: " ++ msg)]
        (events_of environ d) /\
      outcome environ d = Exited 1) /\
  (outcome environ d = Exited 0 \/ outcome environ d = Exited 1) /\
  (outcome environ d = Exited 0 <-> exists a, snd (try_body (Some url) d) = Return a) /\
  (outcome environ d = Exited 0 ->
   ends_with [Call AtCursorClose EmptyString; Call AtConnClose EmptyString]
     (events_of environ d)).
Proof.
  intros Henv Hurl.
  unfold events_of, outcome, run.
  rewrite (check_schema_configured environ url d Henv Hurl), try_except_eval.
  pose proof (surface_try_body d url) as Hsurf.
  pose proof (exits_one_try_body d url) as Hexit.
  pose proof (released_try_body d url) as Hrel.
  unfold faults_surface, exits_one, returns_after in *.
  destruct (try_body (Some url) d) as [t r]. cbn [fst snd] in *.
  split; [|split; [|split; [|split]]].
  - intros t' msg [= -> ->]. reflexivity.
  - intros site arg msg Hin Hf.
    assert (Hin' : In (Call site arg) t).
    { destruct r as [a|[m|c]]; cbn [fst snd] in Hin.
      - destruct Hin as [H|H]; [discriminate | exact H].
      - destruct Hin as [H|H]; [discriminate|].
        apply in_app_or in H. destruct H as [H|[H|[]]]; [exact H | discriminate].
      - destruct Hin as [H|H]; [discriminate | exact H]. }
    destruct (Hsurf _ _ _ Hin' Hf) as [-> [pre ->]]. cbn [fst snd outcome_of].
    split; [|reflexivity].
    exists (Print "🔍 Checking post_attribution table schema..." :: pre).
    cbn [app]. rewrite <- app_assoc. reflexivity.
  - destruct r as [a|[m|c]]; cbn [fst snd outcome_of]; auto.
    rewrite (Hexit c eq_refl). auto.
  - destruct r as [a|[m|c]]; cbn [fst snd outcome_of]; split; intros H; eauto;
      try discriminate; try (destruct H; discriminate).
    rewrite (Hexit c eq_refl) in H. discriminate.
  - destruct r as [a|[m|c]]; cbn [fst snd outcome_of]; intros H; try discriminate.
    + apply ends_with_cons. eapply Hrel. reflexivity.
    + rewrite (Hexit c eq_refl) in H. discriminate.
Qed.

Lemma generic_error_path_witness :
  getenv "DATABASE_URL" [("DATABASE_URL", "postgresql://bot@db.invalid/xbot")] =
    Some "postgresql://bot@db.invalid/xbot" /\
  "postgresql://bot@db.invalid/xbot" <> EmptyString /\
  run [("DATABASE_URL", "postgresql://bot@db.invalid/xbot")]
      (psycopg2 (Unreachable "could not translate host name")) =
    ([Print "🔍 Checking post_attribution table schema...";
      Call AtConnect "postgresql://bot@db.invalid/xbot";
      Print "❌ Database error: could not translate host name"],
     Exited 1).
Proof.
  split; [reflexivity | split; [discriminate |]].
  apply (proj1 (generic_error_path
                  [("DATABASE_URL", "postgresql://bot@db.invalid/xbot")]
                  "postgresql://bot@db.invalid/xbot"
                  (psycopg2 (Unreachable "could not translate host name"))
                  eq_refl ltac:(discriminate))
               [Call AtConnect "postgresql://bot@db.invalid/xbot"]
               "could not translate host name").
  reflexivity.
Defined.

(** ** The table-existence gate *)

(** C4: when the catalog statement returns no column, the run is: the
    banner, the connection, the cursor, the catalog statement and its fetch,
    the line "post_attribution table doesn't exist!", and exit status 1.
    Nothing follows: no line about missing columns, no row-count statement.
    The line is not one the handler of database errors prints. *)
Theorem table_existence_gate (environ : Environ) (url : string) (d : Driver) :
  getenv "DATABASE_URL" environ = Some url ->
  url <> EmptyString ->
  catalog_answers d ->
  catalog_rows d = [] ->
  run environ d =
    ([Print "🔍 Checking post_attribution table schema...";
      Call AtConnect url;
      Call AtCursor EmptyString;
      Call AtExecColumns SQL_COLUMNS;
      Call AtFetchColumns EmptyString;
      Print "❌ post_attribution table doesn't exist!"],
     Exited 1) /\
  forall msg, "❌ post_attribution table doesn't exist!" <> "❌ Database error: " ++ msg.
Proof.
  intros Henv Hurl (H1 & H2 & H3 & H4) Hcols. split; [|discriminate].
  script_unfold. rewrite Henv, (truthy_url url Hurl).
  script_step. rewrite H1, H2, H3, H4, Hcols. reflexivity.
Qed.

Lemma table_existence_gate_witness :
  run [("DATABASE_URL", "postgresql://localhost/xbot")] (psycopg2 (Database None 0)) =
    ([Print "🔍 Checking post_attribution table schema...";
      Call AtConnect "postgresql://localhost/xbot";
      Call AtCursor EmptyString;
      Call AtExecColumns SQL_COLUMNS;
      Call AtFetchColumns EmptyString;
      Print "❌ post_attribution table doesn't exist!"],
     Exited 1).
Proof.
  apply (table_existence_gate [("DATABASE_URL", "postgresql://localhost/xbot")]
           "postgresql://localhost/xbot" (psycopg2 (Database None 0))).
  - reflexivity.
  - discriminate.
  - repeat split.
  - reflexivity.
Defined.

(** C9: when the catalog statement returns no column, the body of the [try]
    ends on [SystemExit(1)], raised by [exit(1)] after the table-absence
    line; the [except Exception] handler leaves it alone, so that the guarded
    statement ends as its body does; the process exits with status 1, and no
    "Database error: " line is printed. *)
Theorem table_absence_passes_handler (environ : Environ) (url : string) (d : Driver) :
  getenv "DATABASE_URL" environ = Some url ->
  url <> EmptyString ->
  catalog_answers d ->
  catalog_rows d = [] ->
  try_body (Some url) d =
    ([Call AtConnect url;
      Call AtCursor EmptyString;
      Call AtExecColumns SQL_COLUMNS;
      Call AtFetchColumns EmptyString;
      Print "❌ post_attribution table doesn't exist!"],
     Raise (SystemExit 1)) /\
  try_except (try_body (Some url)) handler d = try_body (Some url) d /\
  outcome environ d = Exited 1 /\
  forall msg, ~ In (Print ("❌ Database error: " ++ msg)) (events_of environ d).
Proof.
  intros Henv Hurl (H1 & H2 & H3 & H4) Hcols.
  assert (Hbody : try_body (Some url) d =
    ([Call AtConnect url; Call AtCursor EmptyString;
      Call AtExecColumns SQL_COLUMNS; Call AtFetchColumns EmptyString;
      Print "❌ post_attribution table doesn't exist!"],
     Raise (SystemExit 1))).
  { script_unfold. rewrite H1, H2, H3, H4, Hcols. reflexivity. }
  split; [exact Hbody|].
  split; [rewrite Hbody; apply try_except_SystemExit; exact Hbody|].
  unfold outcome, events_of, run.
  rewrite (check_schema_configured environ url d Henv Hurl).
  rewrite (try_except_SystemExit _ _ _ _ _ Hbody). cbn [fst snd outcome_of].
  split; [reflexivity|].
  intros msg Hin. cbn [In] in Hin.
  repeat (destruct Hin as [Hin|Hin]; [discriminate|]). exact Hin.
Qed.

Lemma table_absence_passes_handler_witness :
  try_except (try_body (Some "postgresql://localhost/xbot")) handler
    (psycopg2 (Database None 0)) =
  try_body (Some "postgresql://localhost/xbot") (psycopg2 (Database None 0)) /\
  outcome [("DATABASE_URL", "postgresql://localhost/xbot")]
    (psycopg2 (Database None 0)) = Exited 1.
Proof.
  pose proof (table_absence_passes_handler
                [("DATABASE_URL", "postgresql://localhost/xbot")]
                "postgresql://localhost/xbot" (psycopg2 (Database None 0))
                eq_refl ltac:(discriminate)
                (conj eq_refl (conj eq_refl (conj eq_refl eq_refl)))
                eq_refl) as (_ & Hpass & Hout & _).
  exact (conj Hpass Hout).
Defined.

(** ** The row count *)

(** C3: when the row count comes back as [count], its line is printed, and
    the 7-day aggregate statement is issued if and only if [count] is
    greater than zero.  For a count of zero, with the cursor and the
    connection closing normally, the run ends right after the line
    "Total posts in post_attribution: 0" with the two releases and exit
    status 0. *)
Theorem zero_row_short_circuit (environ : Environ) (url : string) (d : Driver)
    (count : Z) :
  getenv "DATABASE_URL" environ = Some url ->
  url <> EmptyString ->
  count_answers d ->
  catalog_rows d <> [] ->
  count_row d = Some count ->
  In (Print (nl ++ "📈 Total posts in post_attribution: " ++ str_int count))
     (events_of environ d) /\
  (called AtExecStats (events_of environ d) <-> 0 < count) /\
  (In (Call AtExecStats SQL_STATS) (events_of environ d) <-> 0 < count) /\
  (count = 0 ->
   fault d AtCursorClose = None ->
   fault d AtConnClose = None ->
   run environ d =
     ((Print "🔍 Checking post_attribution table schema..."
         :: inspection url (catalog_rows d) 0 ++
            [Call AtCursorClose EmptyString; Call AtConnClose EmptyString])%list,
      Exited 0) /\
   ends_with [Print (nl ++ "📈 Total posts in post_attribution: 0");
              Call AtCursorClose EmptyString; Call AtConnClose EmptyString]
     (events_of environ d)).
Proof.
  intros Henv Hurl Hans Hcols Hcount.
  assert (Hcalled : forall arg,
             In (Call AtExecStats arg) (events_of environ d) <->
             In (Call AtExecStats arg) (fst (after_count count d))).
  { intros arg. rewrite (events_configured _ _ _ Henv Hurl).
    rewrite (try_body_counted url d count Hans Hcols Hcount).
    unfold prepend. cbn [fst snd In]. repeat rewrite in_app_iff.
    pose proof (stats_not_in_inspection url (catalog_rows d) count arg).
    pose proof (no_call_in_error_report (snd (after_count count d)) AtExecStats arg).
    intuition discriminate. }
  split; [|split; [|split]].
  - rewrite (events_configured _ _ _ Henv Hurl).
    rewrite (try_body_counted url d count Hans Hcols Hcount).
    unfold prepend. cbn [fst snd]. right.
    do 2 (apply in_or_app; left). unfold inspection.
    do 3 (apply in_or_app; right). cbn [In]. auto.
  - rewrite <- (after_count_stats d count). unfold called.
    split; intros [arg H]; exists arg; apply Hcalled; exact H.
  - rewrite Hcalled. split.
    + intros H. apply (after_count_stats d count). exists SQL_STATS. exact H.
    + intros H. apply (after_count_issued d count H).
  - intros -> Hc1 Hc2.
    assert (Hrun : run environ d =
      ((Print "🔍 Checking post_attribution table schema..."
         :: inspection url (catalog_rows d) 0 ++
            [Call AtCursorClose EmptyString; Call AtConnClose EmptyString])%list,
      Exited 0)).
    { rewrite (run_configured _ _ _ Henv Hurl), try_except_eval.
      rewrite (try_body_counted url d 0 Hans Hcols Hcount).
      unfold after_count, cur_close, conn_close. cbn [Z.ltb Z.compare].
      repeat step. unfold call. rewrite Hc2. unfold prepend.
      cbn [fst snd outcome_of]. rewrite <- app_assoc. reflexivity. }
    split; [exact Hrun|].
    unfold events_of. rewrite Hrun. cbn [fst]. apply ends_with_cons.
    unfold inspection. repeat rewrite app_assoc.
    exists ((([Call AtConnect url; Call AtCursor EmptyString;
       Call AtExecColumns SQL_COLUMNS; Call AtFetchColumns EmptyString;
       Print ("�� Found " ++
              str_int (Z.of_nat (List.length (catalog_rows d))) ++
              " columns in post_attribution table:")] ++
      map (fun col => Print (describe col)) (catalog_rows d)) ++
      missing_report (catalog_rows d)) ++
      [Call AtExecCount SQL_COUNT; Call AtFetchCount EmptyString])%list.
    repeat rewrite <- app_assoc. reflexivity.
Qed.

Lemma zero_row_short_circuit_witness :
  In (Print (nl ++ "📈 Total posts in post_attribution: 0"))
     (events_of configured
        (psycopg2 (Database (Some (full_table (fun _ => None) (fun _ => None)
                                     (fun _ => None) (fun _ => None) 0)) 0))) /\
  ~ In (Call AtExecStats SQL_STATS)
     (events_of configured
        (psycopg2 (Database (Some (full_table (fun _ => None) (fun _ => None)
                                     (fun _ => None) (fun _ => None) 0)) 0))) /\
  outcome configured
    (psycopg2 (Database (Some (full_table (fun _ => None) (fun _ => None)
                                 (fun _ => None) (fun _ => None) 0)) 0)) = Exited 0.
Proof.
  destruct (zero_row_short_circuit configured "postgresql://localhost/xbot"
              (psycopg2 (Database (Some (full_table (fun _ => None) (fun _ => None)
                                           (fun _ => None) (fun _ => None) 0)) 0))
              0 eq_refl ltac:(discriminate) ltac:(repeat split) ltac:(discriminate)
              eq_refl)
    as (Hline & _ & Hissued & Hzero).
  split; [exact Hline | split].
  - intros H. apply Hissued in H. discriminate H.
  - destruct (Hzero eq_refl eq_refl eq_refl) as [Hrun _].
    unfold outcome. rewrite Hrun. reflexivity.
Defined.

(** ** Missing essential columns *)

Lemma str_in_spec (col : string) (l : list string) :
  str_in col l = true <-> In col l.
Proof.
  unfold str_in. rewrite existsb_exists. split.
  - intros [x [Hin Heq]]. apply String.eqb_eq in Heq. subst. exact Hin.
  - intros Hin. exists col. split; [exact Hin | apply String.eqb_refl].
Qed.

Lemma existing_catalog (t : Table) : existing_columns (catalog t) = column_names t.
Proof. unfold existing_columns, catalog, column_names. rewrite map_map. reflexivity. Qed.

(** Line 41 is the ordered difference: the essential names that are not
    names of existing columns, in the order of [essential_columns]. *)
Lemma missing_columns_spec (columns : list ColumnDescriptor) (col : string) :
  In col (missing_columns columns) <->
  In col essential_columns /\ ~ In col (existing_columns columns).
Proof.
  unfold missing_columns. rewrite filter_In, negb_true_iff, <- not_true_iff_false.
  rewrite str_in_spec. reflexivity.
Qed.

Lemma missing_of_two (columns : list ColumnDescriptor) :
  (forall col, In col (existing_columns columns) <->
               col = "engagement_rate" \/ col = "topic") ->
  missing_columns columns =
    ["impressions"; "followers_gained"; "hook_pattern"; "generator_used"].
Proof.
  intros H.
  assert (Hin : forall col, col = "engagement_rate" \/ col = "topic" ->
                  str_in col (existing_columns columns) = true).
  { intros col Hcol. apply str_in_spec, H, Hcol. }
  assert (Hout : forall col, col <> "engagement_rate" -> col <> "topic" ->
                   str_in col (existing_columns columns) = false).
  { intros col H1 H2. apply not_true_iff_false. rewrite str_in_spec, H. tauto. }
  unfold missing_columns, essential_columns. cbn [filter].
  rewrite (Hin "engagement_rate"), (Hin "topic") by auto.
  rewrite (Hout "impressions"), (Hout "followers_gained"), (Hout "hook_pattern"),
    (Hout "generator_used") by discriminate.
  reflexivity.
Qed.

Lemma find_column_none (col : string) (cols : list Column) :
  ~ In col (map name cols) -> find_column col cols = None.
Proof.
  induction cols as [|c cols IH]; cbn [find_column map In]; [reflexivity|].
  intros H. destruct (String.eqb (name c) col) eqn:E.
  - apply String.eqb_eq in E. tauto.
  - apply IH. tauto.
Qed.

(** A table without [impressions]: the server rejects the 7-day
    aggregate. *)
Lemma sql_stats_rejected (t : Table) (now : Z) :
  ~ In "impressions" (column_names t) -> exists msg, sql_stats t now = inl msg.
Proof.
  intros H. unfold sql_stats.
  destruct (coalesce_zero "engagement_rate" (table_columns t)) as [msg|cells];
    [eexists; reflexivity|].
  unfold coalesce_zero at 1. rewrite (find_column_none _ _ H).
  eexists; reflexivity.
Qed.

(** C1, as the code has it: for every table whose column names are exactly
    engagement_rate and topic, the missing-columns list is impressions,
    followers_gained, hook_pattern, generator_used in that order, the
    warning with that list and the hint line are printed, and the run goes
    on to the row-count statement.  The exit status is 0 exactly when the
    table has no row; with rows, the 7-day aggregate is issued, the server
    rejects it, and the status is 1. *)
Theorem missing_columns_reported (environ : Environ) (url : string) (t : Table)
    (now : Z) :
  getenv "DATABASE_URL" environ = Some url ->
  url <> EmptyString ->
  (forall col, In col (column_names t) <-> col = "engagement_rate" \/ col = "topic") ->
  missing_columns (catalog t) =
    ["impressions"; "followers_gained"; "hook_pattern"; "generator_used"] /\
  In (Print (nl ++ "❌ MISSING ESSENTIAL COLUMNS: " ++
             "['impressions', 'followers_gained', 'hook_pattern', 'generator_used']"))
     (events_of environ (psycopg2 (Database (Some t) now))) /\
  In (Print "🔧 These columns are required for learning loops to work!")
     (events_of environ (psycopg2 (Database (Some t) now))) /\
  In (Call AtExecCount SQL_COUNT)
     (events_of environ (psycopg2 (Database (Some t) now))) /\
  (outcome environ (psycopg2 (Database (Some t) now)) = Exited 0 <->
   table_rows t = 0%nat) /\
  (table_rows t <> 0%nat ->
   outcome environ (psycopg2 (Database (Some t) now)) = Exited 1 /\
   In (Call AtExecStats SQL_STATS)
      (events_of environ (psycopg2 (Database (Some t) now)))).
Proof.
  intros Henv Hurl Hset.
  set (d := psycopg2 (Database (Some t) now)).
  assert (Hmissing : missing_columns (catalog t) =
            ["impressions"; "followers_gained"; "hook_pattern"; "generator_used"]).
  { apply missing_of_two. rewrite existing_catalog. exact Hset. }
  assert (Hcols : catalog_rows d <> []).
  { cbn. unfold catalog. intros E. apply map_eq_nil in E.
    assert (Hin : In "topic" (column_names t)) by (apply Hset; auto).
    unfold column_names in Hin. rewrite E in Hin. exact Hin. }
  pose proof (try_body_counted url d (Z.of_nat (table_rows t))
                (database_answers t now) Hcols eq_refl) as Hbody.
  pose proof (events_configured _ _ d Henv Hurl) as Hev.
  pose proof (outcome_configured _ _ d Henv Hurl) as Hout.
  rewrite Hbody in Hev, Hout. unfold prepend in Hev, Hout. cbn [fst snd] in Hev, Hout.
  assert (Hrep : missing_report (catalog_rows d) =
    [Print (nl ++ "❌ MISSING ESSENTIAL COLUMNS: " ++
             "['impressions', 'followers_gained', 'hook_pattern', 'generator_used']");
     Print "🔧 These columns are required for learning loops to work!"]).
  { unfold missing_report. cbn [d psycopg2 catalog_rows]. rewrite Hmissing. reflexivity. }
  assert (Hstatus : outcome environ d = Exited 0 <-> table_rows t = 0%nat).
  { rewrite Hout. destruct (table_rows t) as [|n] eqn:Hrows.
    - cbn [Z.of_nat]. rewrite (after_count_zero d eq_refl eq_refl). cbn [snd]. tauto.
    - destruct (sql_stats_rejected t now) as [msg Hmsg].
      { rewrite Hset. intros [H|H]; discriminate. }
      rewrite (after_count_rejected d (Z.of_nat (S n)) msg).
      + cbn [snd]. split; [discriminate | lia].
      + lia.
      + cbn [d psycopg2 fault]. rewrite Hmsg. reflexivity. }
  split; [exact Hmissing|].
  split; [|split; [|split; [|split; [exact Hstatus|]]]].
  - rewrite Hev. right. do 2 (apply in_or_app; left).
    apply in_inspection_report. rewrite Hrep. left. reflexivity.
  - rewrite Hev. right. do 2 (apply in_or_app; left).
    apply in_inspection_report. rewrite Hrep. right. left. reflexivity.
  - rewrite Hev. right. do 2 (apply in_or_app; left).
    apply in_inspection_tail. left. reflexivity.
  - intros Hrows. split.
    + destruct (outcome_zero_or_one environ d) as [H|H]; [|exact H].
      apply Hstatus in H. contradiction.
    + rewrite Hev. right. apply in_or_app; left. apply in_or_app; right.
      apply after_count_issued. lia.
Qed.

Lemma missing_columns_reported_witness :
  getenv "DATABASE_URL" configured = Some "postgresql://localhost/xbot" /\
  (forall col, In col (column_names empty_two_column_table) <->
               col = "engagement_rate" \/ col = "topic") /\
  missing_columns (catalog empty_two_column_table) =
    ["impressions"; "followers_gained"; "hook_pattern"; "generator_used"] /\
  outcome configured (psycopg2 (Database (Some empty_two_column_table) 0)) = Exited 0.
Proof.
  assert (Hset : forall col, In col (column_names empty_two_column_table) <->
                             col = "engagement_rate" \/ col = "topic").
  { intros col. cbn. intuition. }
  split; [reflexivity | split; [exact Hset |]].
  destruct (missing_columns_reported configured "postgresql://localhost/xbot"
              empty_two_column_table 0 eq_refl ltac:(discriminate) Hset)
    as (Hmissing & _ & _ & _ & Hstatus & _).
  split; [exact Hmissing | apply Hstatus; reflexivity].
Defined.

(** C1 as stated fails: the table with the columns engagement_rate and
    topic and one row.  The missing columns are reported, the row count is
    1, the 7-day aggregate is issued, the server rejects it for the column
    impressions, and the exit status is 1, not 0. *)
Lemma missing_columns_exit_status_with_rows :
  column_names two_column_table = ["engagement_rate"; "topic"] /\
  missing_columns (catalog two_column_table) =
    ["impressions"; "followers_gained"; "hook_pattern"; "generator_used"] /\
  run configured (psycopg2 (Database (Some two_column_table) 1700000000000000)) =
    ([Print "🔍 Checking post_attribution table schema...";
      Call AtConnect "postgresql://localhost/xbot";
      Call AtCursor EmptyString;
      Call AtExecColumns SQL_COLUMNS;
      Call AtFetchColumns EmptyString;
      Print "�� Found 2 columns in post_attribution table:";
      Print "  - engagement_rate: numeric (NULL)";
      Print "  - topic: text (NULL)";
      Print (nl ++ "❌ MISSING ESSENTIAL COLUMNS: " ++
             "['impressions', 'followers_gained', 'hook_pattern', 'generator_used']");
      Print "🔧 These columns are required for learning loops to work!";
      Call AtExecCount SQL_COUNT;
      Call AtFetchCount EmptyString;
      Print (nl ++ "📈 Total posts in post_attribution: 1");
      Call AtExecStats SQL_STATS;
      Print ("❌ Database error: " ++ undefined_column "impressions")],
     Exited 1) /\
  exit_status
    (outcome configured (psycopg2 (Database (Some two_column_table) 1700000000000000)))
  = 1.
Proof. repeat split. Qed.

(** ** The 7-day aggregate *)

Lemma window_empty (now : Z) (posted_at : nat -> option Datetime) (rows : nat) :
  (forall i, (i < rows)%nat -> recent now posted_at i = false) ->
  window now posted_at rows = [].
Proof.
  intros H. unfold window.
  assert (Hall : forall i, In i (seq 0 rows) -> recent now posted_at i = false).
  { intros i Hi. apply in_seq in Hi. apply H. lia. }
  induction (seq 0 rows) as [|i l IH]; [reflexivity|].
  cbn [filter]. rewrite (Hall i) by (left; reflexivity).
  apply IH. intros j Hj. apply Hall. right. exact Hj.
Qed.


Lemma sql_stats_accepted (t : Table) (now : Z) (row : StatsRow) :
  sql_stats t now = inr row ->
  exists e v f p,
    coalesce_zero "engagement_rate" (table_columns t) = inr e /\
    coalesce_zero "impressions" (table_columns t) = inr v /\
    coalesce_zero "followers_gained" (table_columns t) = inr f /\
    posted_at_cells (table_columns t) = inr p /\
    row = {| total_posts := Z.of_nat (List.length (recent_rows t now));
             avg_engagement := sql_avg (map e (recent_rows t now));
             avg_views := sql_avg (map v (recent_rows t now));
             avg_followers := sql_avg (map f (recent_rows t now));
             most_recent_post := sql_max (map p (recent_rows t now)) |}.
Proof.
  unfold sql_stats, recent_rows.
  destruct (coalesce_zero "engagement_rate" _) as [|e]; [discriminate|].
  destruct (coalesce_zero "impressions" _) as [|v]; [discriminate|].
  destruct (coalesce_zero "followers_gained" _) as [|f]; [discriminate|].
  destruct (posted_at_cells _) as [|p]; [discriminate|].
  intros [= <-]. exists e, v, f, p. repeat split.
Qed.

(** C10: a table with rows, none of them in the 7-day window, on which the
    server accepts the aggregate: the aggregate row is a count of 0 with
    NULL averages and a NULL maximum; [or 0] turns each [None] average into
    0 before [float()] (which on [None] would be a [TypeError]); the report
    prints 0.00%, 0, 0.0 and None; the cursor and the connection are closed
    and the exit status is 0. *)
Theorem empty_window_report (environ : Environ) (url : string) (t : Table)
    (now : Z) (row : StatsRow) (posted_at : nat -> option Datetime) :
  getenv "DATABASE_URL" environ = Some url ->
  url <> EmptyString ->
  table_rows t <> 0%nat ->
  sql_stats t now = inr row ->
  posted_at_cells (table_columns t) = inr posted_at ->
  (forall i, (i < table_rows t)%nat -> recent now posted_at i = false) ->
  row = null_row /\
  py_float PyNone = None /\
  py_float (or_zero PyNone) = Some 0%float /\
  run environ (psycopg2 (Database (Some t) now)) =
    ((Print "🔍 Checking post_attribution table schema..."
        :: inspection url (catalog t) (Z.of_nat (table_rows t)) ++
           [Call AtExecStats SQL_STATS;
            Call AtFetchStats EmptyString;
            Print "📊 Last 7 days stats:";
            Print "  - Posts: 0";
            Print "  - Avg Engagement: 0.00%";
            Print "  - Avg Views: 0";
            Print "  - Avg Followers: 0.0";
            Print "  - Most Recent: None";
            Call AtCursorClose EmptyString;
            Call AtConnClose EmptyString])%list,
     Exited 0).
Proof.
  intros Henv Hurl Hrows Hstats Hcells Hold.
  assert (Hrow : row = null_row).
  { revert Hstats. unfold sql_stats.
    destruct (coalesce_zero "engagement_rate" _); [discriminate|].
    destruct (coalesce_zero "impressions" _); [discriminate|].
    destruct (coalesce_zero "followers_gained" _); [discriminate|].
    rewrite Hcells, (window_empty _ _ _ Hold). intros [= <-]. reflexivity. }
  subst row. split; [reflexivity | split; [reflexivity | split; [reflexivity |]]].
  set (d := psycopg2 (Database (Some t) now)).
  assert (Hcols : catalog_rows d <> []).
  { cbn. unfold catalog. intros E. apply map_eq_nil in E.
    unfold posted_at_cells in Hcells. rewrite E in Hcells. discriminate. }
  rewrite (run_configured _ _ d Henv Hurl), try_except_eval.
  rewrite (try_body_counted url d (Z.of_nat (table_rows t))
             (database_answers t now) Hcols eq_refl).
  assert (Hc : 0 < Z.of_nat (table_rows t)) by lia.
  assert (Hf : fault d AtExecStats = None).
  { cbn [d psycopg2 fault]. rewrite Hstats. reflexivity. }
  assert (Hr : stats_row d = Some null_row).
  { cbn [d psycopg2 stats_row]. rewrite Hstats. reflexivity. }
  rewrite (after_count_reported d _ null_row _ Hc Hf eq_refl eq_refl eq_refl Hr
             (report_null_row d)).
  reflexivity.
Qed.

Lemma empty_window_report_witness :
  sql_stats (full_table (fun _ => Some (1 # 10)) (fun _ => Some (250 # 1))
               (fun _ => None) (fun _ => Some at_noon) 3)
            1800000000000000 = inr null_row /\
  run configured
    (psycopg2 (Database (Some (full_table (fun _ => Some (1 # 10))
                                 (fun _ => Some (250 # 1)) (fun _ => None)
                                 (fun _ => Some at_noon) 3))
                 1800000000000000)) =
    ((Print "🔍 Checking post_attribution table schema..."
        :: inspection "postgresql://localhost/xbot"
             (catalog (full_table (fun _ => Some (1 # 10)) (fun _ => Some (250 # 1))
                         (fun _ => None) (fun _ => Some at_noon) 3)) 3 ++
           [Call AtExecStats SQL_STATS;
            Call AtFetchStats EmptyString;
            Print "📊 Last 7 days stats:";
            Print "  - Posts: 0";
            Print "  - Avg Engagement: 0.00%";
            Print "  - Avg Views: 0";
            Print "  - Avg Followers: 0.0";
            Print "  - Most Recent: None";
            Call AtCursorClose EmptyString;
            Call AtConnClose EmptyString])%list,
     Exited 0).
Proof.
  split; [reflexivity|].
  apply (empty_window_report configured "postgresql://localhost/xbot"
           (full_table (fun _ => Some (1 # 10)) (fun _ => Some (250 # 1))
              (fun _ => None) (fun _ => Some at_noon) 3)
           1800000000000000 null_row (fun _ => Some at_noon)).
  - reflexivity.
  - discriminate.
  - discriminate.
  - reflexivity.
  - reflexivity.
  - intros i _. reflexivity.
Defined.







(** ** Fixed-point formatting *)




















Example sample_report :
  fst (report_stats (Some sample_row) (psycopg2 (Database None 0))) =
    [Print "📊 Last 7 days stats:";
     Print "  - Posts: 4";
     Print "  - Avg Engagement: 5.00%";
     Print "  - Avg Views: 1250";
     Print "  - Avg Followers: 0.2";
     Print "  - Most Recent: 2023-11-14 22:13:20+00:00"].
Proof. reflexivity. Qed.

(** * Further properties of the script *)

(** ** The order of the calls *)

Lemma sites_of_app (l1 l2 : list Event) :
  sites_of (l1 ++ l2) = (sites_of l1 ++ sites_of l2)%list.
Proof.
  induction l1 as [|[text|site arg] l1 IH]; cbn [app sites_of]; [reflexivity | exact IH |].
  rewrite IH. reflexivity.
Qed.


Lemma sites_of_listing (columns : list ColumnDescriptor) :
  sites_of (map (fun col => Print (describe col)) columns) = [].
Proof. induction columns as [|col columns IH]; [reflexivity | exact IH]. Qed.

Lemma in_sites_of (site : Site) (events : list Event) :
  In site (sites_of events) <-> called site events.
Proof.
  unfold called. induction events as [|[text|s arg] events IH]; cbn [sites_of In].
  - split; [intros [] | intros [arg []]].
  - rewrite IH. split; intros [arg H]; exists arg; [right; exact H|].
    destruct H as [H|H]; [discriminate | exact H].
  - rewrite IH. split.
    + intros [->|[a H]]; [exists arg; left; reflexivity | exists a; right; exact H].
    + intros [a [H|H]]; [left; congruence | right; exists a; exact H].
Qed.

Lemma sorted_app (l1 l2 : list Site) (mid : nat) :
  StronglySorted earlier l1 ->
  Forall (fun site => (site_index site < mid)%nat) l1 ->
  StronglySorted earlier l2 ->
  Forall (fun site => (mid <= site_index site)%nat) l2 ->
  StronglySorted earlier (l1 ++ l2).
Proof.
  intros H1 Hb1 H2 Hb2. induction H1 as [|s l1 Hs IH Hall]; cbn [app]; [exact H2|].
  inversion Hb1 as [|? ? Hlt Hb1']; subst.
  constructor; [apply IH; exact Hb1'|].
  apply Forall_app. split; [exact Hall|].
  eapply Forall_impl; [|exact Hb2]. unfold earlier. cbv beta. intros. lia.
Qed.

Section Order.

Context (d : Driver).

Lemma within_weaken {A} (lo hi lo' hi' : nat) (m : Py A) :
  (lo' <= lo)%nat -> (hi <= hi')%nat -> within lo hi d m -> within lo' hi' d m.
Proof.
  intros Hlo Hhi [Hs Hb]. split; [exact Hs|].
  eapply Forall_impl; [|exact Hb]. cbv beta. intros. lia.
Qed.

Lemma within_quiet {A} (lo : nat) (m : Py A) :
  sites_of (fst (m d)) = [] -> within lo lo d m.
Proof. intros H. unfold within. rewrite H. split; constructor. Qed.

Lemma within_call (site : Site) (arg : string) :
  within (site_index site) (S (site_index site)) d (call site arg).
Proof.
  unfold within, call. cbn [fst sites_of]. split; repeat constructor.
Qed.

Lemma within_bind {A B} (lo mid hi : nat) (m : Py A) (k : A -> Py B) :
  (lo <= mid <= hi)%nat ->
  within lo mid d m -> (forall a, within mid hi d (k a)) -> within lo hi d (bind m k).
Proof.
  intros Hmid [Hs Hb] Hk. unfold within. rewrite bind_eval.
  destruct (snd (m d)) as [a|e]; cbn [fst].
  - destruct (Hk a) as [Hsk Hbk]. rewrite sites_of_app. split.
    + apply (sorted_app _ _ mid); try assumption.
      * eapply Forall_impl; [|exact Hb]. cbv beta. intros. lia.
      * eapply Forall_impl; [|exact Hbk]. cbv beta. intros. lia.
    + apply Forall_app. split; (eapply Forall_impl; [|eassumption]); cbv beta; intros; lia.
  - split; [exact Hs|]. eapply Forall_impl; [|exact Hb]. cbv beta. intros. lia.
Qed.

Lemma within_for_each_print (lo : nat) (columns : list ColumnDescriptor) :
  within lo lo d (for_each columns (fun col => print (describe col))).
Proof. apply within_quiet. rewrite for_each_print. apply sites_of_listing. Qed.

End Order.

Lemma report_stats_quiet (d : Driver) (stats : option StatsRow) :
  sites_of (fst (report_stats stats d)) = [].
Proof.
  destruct stats as [row|]; [rewrite report_stats_lines|]; reflexivity.
Qed.

Lemma within_fetch {A} (d : Driver) (site : Site) (rows : Driver -> A) :
  within (site_index site) (S (site_index site)) d
    (call site EmptyString ;; result_set rows).
Proof.
  apply (within_bind d _ (S (site_index site))); [lia | apply within_call |].
  intros _. apply within_quiet. reflexivity.
Qed.

Lemma within_try_body (d : Driver) (url : string) :
  within 0 10 d (try_body (Some url)).
Proof.
  unfold try_body, connect, cursor, execute, fetchall, fetchone_count,
    fetchone_stats, cur_close, conn_close.
  apply (within_bind d 0 1 10); [lia | apply (within_call d AtConnect) | intros _].
  apply (within_bind d 1 2 10); [lia | apply (within_call d AtCursor) | intros _].
  apply (within_bind d 2 3 10); [lia | apply (within_call d AtExecColumns) | intros _].
  apply (within_bind d 3 4 10); [lia | apply (within_fetch d AtFetchColumns) | intros columns].
  apply (within_bind d 4 4 10);
    [lia | apply within_quiet; destruct columns; reflexivity | intros _].
  apply (within_bind d 4 4 10); [lia | apply within_quiet; reflexivity | intros _].
  apply (within_bind d 4 4 10); [lia | apply within_for_each_print | intros _].
  apply (within_bind d 4 4 10);
    [lia | apply within_quiet; destruct (missing_columns columns); reflexivity | intros _].
  apply (within_bind d 4 5 10); [lia | apply (within_call d AtExecCount) | intros _].
  apply (within_bind d 5 6 10); [lia | apply (within_fetch d AtFetchCount) | intros row].
  apply (within_bind d 6 6 10);
    [lia | apply within_quiet; destruct row; reflexivity | intros count].
  apply (within_bind d 6 6 10); [lia | apply within_quiet; reflexivity | intros _].
  apply (within_bind d 6 8 10); [lia | | intros _].
  - destruct (0 <? count).
    + apply (within_bind d 6 7 8); [lia | apply (within_call d AtExecStats) | intros _].
      apply (within_bind d 7 8 8); [lia | apply (within_fetch d AtFetchStats) | intros stats].
      apply within_quiet. apply report_stats_quiet.
    + apply (within_weaken d 6 6); [lia | lia | apply within_quiet; reflexivity].
  - apply (within_bind d 8 9 10); [lia | apply (within_call d AtCursorClose) | intros _].
    apply (within_call d AtConnClose).
Qed.

(** X1: in every run, whatever the environment and whatever the database
    does, the calls on the driver are made in the order of the source, each
    once at most: the list of the call sites of the run is strictly
    increasing along connect, cursor, catalog statement, its fetch, row
    count, its fetch, 7-day aggregate, its fetch, cursor close, connection
    close.  So no call is repeated: one connection at most, and each of the
    three statements once at most. *)
Theorem calls_in_source_order (environ : Environ) (d : Driver) :
  StronglySorted earlier (sites_of (events_of environ d)) /\
  NoDup (sites_of (events_of environ d)).
Proof.
  assert (Hsorted : StronglySorted earlier (sites_of (events_of environ d))).
  { destruct (truthy_str (getenv "DATABASE_URL" environ)) eqn:E.
    - destruct (getenv "DATABASE_URL" environ) as [url|] eqn:Henv; [|discriminate].
      assert (Hurl : url <> EmptyString) by (intros ->; discriminate).
      rewrite (events_configured _ _ d Henv Hurl). cbn [sites_of].
      rewrite sites_of_app.
      replace (sites_of (error_report (snd (try_body (Some url) d)))) with (@nil Site)
        by (destruct (snd (try_body (Some url) d)) as [a|[msg|code]]; reflexivity).
      rewrite app_nil_r. apply (within_try_body d url).
    - unfold events_of, run, check_schema. rewrite E. cbn. constructor. }
  split; [exact Hsorted|].
  induction Hsorted as [|s l Hs IH Hall]; constructor; [|exact IH].
  intros Hin. rewrite Forall_forall in Hall. apply Hall in Hin.
  unfold earlier in Hin. lia.
Qed.

(** ** Events of the pieces *)

Section Events.

Context (d : Driver) (ok : Event -> Prop).

Lemma satisfy_ret {A} (a : A) : events_satisfy ok d (ret a).
Proof. constructor. Qed.

Lemma satisfy_raise {A} (e : PyExc) : events_satisfy ok d (@raise A e).
Proof. constructor. Qed.

Lemma satisfy_result_set {A} (rows : Driver -> A) : events_satisfy ok d (result_set rows).
Proof. constructor. Qed.

Lemma satisfy_print (text : string) : ok (Print text) -> events_satisfy ok d (print text).
Proof. intros H. repeat constructor. exact H. Qed.

Lemma satisfy_call (site : Site) (arg : string) :
  ok (Call site arg) -> events_satisfy ok d (call site arg).
Proof. intros H. repeat constructor. exact H. Qed.

Lemma satisfy_bind {A B} (m : Py A) (k : A -> Py B) :
  events_satisfy ok d m -> (forall a, events_satisfy ok d (k a)) ->
  events_satisfy ok d (bind m k).
Proof.
  unfold events_satisfy. intros Hm Hk. rewrite bind_eval.
  destruct (snd (m d)) as [a|e]; cbn [fst]; [|exact Hm].
  apply Forall_app. split; [exact Hm | apply Hk].
Qed.

Lemma satisfy_for_each {A} (l : list A) (body : A -> Py unit) :
  (forall x, events_satisfy ok d (body x)) -> events_satisfy ok d (for_each l body).
Proof.
  intros Hbody. induction l as [|x l IH]; cbn [for_each].
  - apply satisfy_ret.
  - apply satisfy_bind; [apply Hbody | intros _; exact IH].
Qed.

Lemma returning_plain {A} (m : Py A) :
  events_satisfy ok d m -> returning_satisfy ok d m.
Proof. intros H _. exact H. Qed.

Lemma returning_never {A} (m : Py A) :
  (forall a, snd (m d) <> Return a) -> returning_satisfy ok d m.
Proof. intros H [a Ha]. destruct (H a Ha). Qed.

Lemma returning_bind {A B} (m : Py A) (k : A -> Py B) :
  returning_satisfy ok d m -> (forall a, returning_satisfy ok d (k a)) ->
  returning_satisfy ok d (bind m k).
Proof.
  unfold returning_satisfy. intros Hm Hk. rewrite bind_eval.
  destruct (snd (m d)) as [a|e] eqn:Hr; cbn [fst snd].
  - intros Hret. apply Forall_app. split; [apply Hm; eauto | apply Hk; exact Hret].
  - intros [b Hb]. discriminate.
Qed.

Lemma returning_print_exit {A} (text : string) (code : Z) :
  returning_satisfy ok d (print text ;; @exit A code).
Proof. apply returning_never. discriminate. Qed.

End Events.

Ltac satisfy leaf :=
  repeat first
    [ apply satisfy_ret | apply satisfy_raise | apply satisfy_result_set
    | apply satisfy_print; leaf | apply satisfy_call; leaf
    | apply satisfy_for_each; intros
    | apply satisfy_bind; intros
    | match goal with
      | |- events_satisfy _ _ (match ?x with _ => _ end) => destruct x
      | |- events_satisfy _ _ (if ?b then _ else _) => destruct b
      end ].

Ltac returning leaf :=
  repeat first
    [ apply returning_print_exit
    | apply returning_bind; intros
    | match goal with
      | |- returning_satisfy _ _ (match ?x with _ => _ end) => destruct x
      | |- returning_satisfy _ _ (if ?b then _ else _) => destruct b
      end
    | apply returning_plain; solve [satisfy leaf] ].

Ltac not_failure :=
  let H := fresh "H" in
  let msg := fresh "msg" in
  unfold not_a_failure, failure_line, nl, describe;
  intros [H|[H|[msg H]]]; cbn [append] in H; discriminate H.

Lemma try_body_not_a_failure (d : Driver) (url : string) :
  returning_satisfy not_a_failure d (try_body (Some url)).
Proof.
  unfold try_body, report_stats, connect, cursor, execute, fetchall,
    fetchone_count, fetchone_stats, cur_close, conn_close, subscript, float_of.
  returning ltac:(first [exact I | not_failure]).
Qed.

Section Exits.

Context (d : Driver) (text : string).

Lemma exits_after_quiet {A} (m : Py A) :
  (forall code, snd (m d) <> Raise (SystemExit code)) -> exits_after text d m.
Proof. intros H code He. destruct (H _ He). Qed.

Lemma exits_after_print_exit {A} (code : Z) :
  exits_after text d (print text ;; @exit A code).
Proof. intros c _. apply ends_with_refl. Qed.

Lemma exits_after_call (site : Site) (arg : string) : exits_after text d (call site arg).
Proof.
  apply exits_after_quiet. intros code. unfold call. cbn [snd].
  destruct (fault d site); discriminate.
Qed.

Lemma exits_after_bind {A B} (m : Py A) (k : A -> Py B) :
  exits_after text d m -> (forall a, exits_after text d (k a)) ->
  exits_after text d (bind m k).
Proof.
  intros Hm Hk code. rewrite bind_eval.
  destruct (snd (m d)) as [a|e] eqn:Hr; cbn [fst snd].
  - intros He. apply ends_with_app. exact (Hk a code He).
  - intros He. apply (Hm code). congruence.
Qed.

Lemma exits_after_for_each {A} (l : list A) (body : A -> Py unit) :
  (forall x, exits_after text d (body x)) -> exits_after text d (for_each l body).
Proof.
  intros Hbody. induction l as [|x l IH]; cbn [for_each].
  - apply exits_after_quiet. discriminate.
  - apply exits_after_bind; [apply Hbody | intros _; exact IH].
Qed.

End Exits.

Ltac exits_after_line :=
  repeat first
    [ apply exits_after_print_exit
    | apply exits_after_call
    | apply exits_after_for_each; intros
    | apply exits_after_bind; intros
    | match goal with
      | |- exits_after _ _ (match ?x with _ => _ end) => destruct x
      | |- exits_after _ _ (if ?b then _ else _) => destruct b
      end
    | apply exits_after_quiet; discriminate ].

Lemma try_body_exits_after (d : Driver) (url : string) :
  exits_after "❌ post_attribution table doesn't exist!" d (try_body (Some url)).
Proof.
  unfold try_body, report_stats, connect, cursor, execute, fetchall,
    fetchone_count, fetchone_stats, cur_close, conn_close, subscript, float_of.
  exits_after_line.
Qed.

Lemma banner_not_a_failure :
  ~ failure_line "🔍 Checking post_attribution table schema...".
Proof. intros [H|[H|[msg H]]]; discriminate H. Qed.

(** X2: the exit status and the failure lines go together, in every run.
    When the status is 1, the last event of the run is one of the three
    failure lines: DATABASE_URL not found, the table doesn't exist, or
    "Database error: " with a message.  When the status is 0, none of these
    lines was printed. *)
Theorem failure_lines_and_status (environ : Environ) (d : Driver) :
  (outcome environ d = Exited 1 <->
   exists text, failure_line text /\ ends_with [Print text] (events_of environ d)) /\
  (outcome environ d = Exited 0 <->
   forall text, In (Print text) (events_of environ d) -> ~ failure_line text).
Proof.
  assert (Hone : outcome environ d = Exited 1 ->
            exists text, failure_line text /\ ends_with [Print text] (events_of environ d)).
  { destruct (truthy_str (getenv "DATABASE_URL" environ)) eqn:E.
    - destruct (getenv "DATABASE_URL" environ) as [url|] eqn:Henv; [|discriminate].
      assert (Hurl : url <> EmptyString) by (intros ->; discriminate).
      rewrite (outcome_configured _ _ d Henv Hurl), (events_configured _ _ d Henv Hurl).
      pose proof (try_body_exits_after d url) as Hexit. unfold exits_after in Hexit.
      destruct (try_body (Some url) d) as [t [a|[msg|code]]]; cbn [fst snd error_report] in *.
      + discriminate.
      + intros _. exists ("❌ Database error: " ++ msg). split.
        * right. right. exists msg. reflexivity.
        * apply ends_with_cons, ends_with_app, ends_with_refl.
      + intros _. exists "❌ post_attribution table doesn't exist!". split.
        * right. left. reflexivity.
        * apply ends_with_cons. rewrite app_nil_r. apply (Hexit code eq_refl).
    - intros _. exists "❌ DATABASE_URL not found in environment". split.
      + left. reflexivity.
      + unfold events_of, run, check_schema. rewrite E. apply ends_with_refl. }
  assert (Hzero : outcome environ d = Exited 0 ->
            forall text, In (Print text) (events_of environ d) -> ~ failure_line text).
  { destruct (truthy_str (getenv "DATABASE_URL" environ)) eqn:E.
    - destruct (getenv "DATABASE_URL" environ) as [url|] eqn:Henv; [|discriminate].
      assert (Hurl : url <> EmptyString) by (intros ->; discriminate).
      rewrite (outcome_configured _ _ d Henv Hurl), (events_configured _ _ d Henv Hurl).
      pose proof (try_body_not_a_failure d url) as Hret.
      unfold returning_satisfy in Hret.
      destruct (try_body (Some url) d) as [t [a|e]]; cbn [fst snd error_report] in *;
        [|discriminate].
      intros _ text [H|H].
      + injection H as <-. apply banner_not_a_failure.
      + rewrite app_nil_r in H. specialize (Hret (ex_intro _ a eq_refl)).
        rewrite Forall_forall in Hret. exact (Hret _ H).
    - unfold outcome, run, check_schema. rewrite E. discriminate. }
  split; split; try assumption.
  - intros (text & Hfail & [pre Hend]).
    destruct (outcome_zero_or_one environ d) as [H0|H1]; [|exact H1].
    exfalso. apply (Hzero H0 text); [|exact Hfail].
    rewrite Hend. apply in_or_app. right. left. reflexivity.
  - intros Hnone.
    destruct (outcome_zero_or_one environ d) as [H0|H1]; [exact H0|].
    destruct (Hone H1) as (text & Hfail & [pre Hend]).
    exfalso. apply (Hnone text); [|exact Hfail].
    rewrite Hend. apply in_or_app. right. left. reflexivity.
Qed.

(** ** Releasing the cursor and the connection *)

Lemma not_called_of_satisfy (d : Driver) {A} (m : Py A) (site : Site) :
  events_satisfy not_a_release d m ->
  site = AtCursorClose \/ site = AtConnClose ->
  ~ called site (fst (m d)).
Proof.
  unfold events_satisfy. intros Hall Hsite [arg Hin].
  rewrite Forall_forall in Hall. apply Hall in Hin.
  destruct Hsite as [-> | ->]; exact Hin.
Qed.

Lemma called_app (site : Site) (l1 l2 : list Event) :
  called site (l1 ++ l2) <-> called site l1 \/ called site l2.
Proof.
  unfold called. split.
  - intros [arg H]. apply in_app_or in H. destruct H; [left | right]; exists arg; assumption.
  - intros [[arg H]|[arg H]]; exists arg; apply in_or_app; [left | right]; assumption.
Qed.

Lemma closes_bind (d : Driver) {A B} (m : Py A) (k : A -> Py B) :
  events_satisfy not_a_release d m -> (forall a, closes_on_return d (k a)) ->
  closes_on_return d (bind m k).
Proof.
  intros Hm Hk. unfold closes_on_return. rewrite bind_eval.
  pose proof (not_called_of_satisfy d m AtCursorClose Hm (or_introl eq_refl)) as H1.
  pose proof (not_called_of_satisfy d m AtConnClose Hm (or_intror eq_refl)) as H2.
  destruct (snd (m d)) as [a|e]; cbn [fst snd].
  - rewrite !called_app. intros Hc Hf1 Hf2. apply (Hk a); [tauto | assumption | assumption].
  - tauto.
Qed.

Lemma closes_releases (d : Driver) :
  closes_on_return d (cur_close ;; conn_close).
Proof.
  intros _ H1 H2. unfold cur_close, conn_close, call, bind. cbn [snd].
  rewrite H1, H2. exists tt. reflexivity.
Qed.

Ltac not_release := solve [exact I].

Lemma try_body_closes_on_return (d : Driver) (url : string) :
  closes_on_return d (try_body (Some url)).
Proof.
  unfold try_body.
  repeat first
    [ apply closes_releases
    | apply closes_bind;
      [ unfold report_stats, connect, cursor, execute, fetchall, fetchone_count,
          fetchone_stats, subscript, float_of, exit;
        solve [satisfy not_release]
      | intros ] ].
Qed.

(** X3: with DATABASE_URL set, and with releases that do not raise, the
    cursor and the connection are released exactly in the runs that end with
    status 0.  A run that ends with status 1 (no table, or any exception
    before line 75) closes neither: the script has no clean-up on its
    failure paths. *)
Theorem release_only_on_success (environ : Environ) (url : string) (d : Driver) :
  getenv "DATABASE_URL" environ = Some url ->
  url <> EmptyString ->
  fault d AtCursorClose = None ->
  fault d AtConnClose = None ->
  (called AtCursorClose (events_of environ d) <-> outcome environ d = Exited 0) /\
  (called AtConnClose (events_of environ d) <-> outcome environ d = Exited 0).
Proof.
  intros Henv Hurl Hf1 Hf2.
  rewrite (events_configured _ _ d Henv Hurl), (outcome_configured _ _ d Henv Hurl).
  pose proof (try_body_closes_on_return d url) as Hclose.
  pose proof (released_try_body d url) as Hrel.
  unfold closes_on_return, returns_after in *.
  assert (Hcalled : forall site,
            called site (Print "🔍 Checking post_attribution table schema..."
                           :: fst (try_body (Some url) d) ++
                              error_report (snd (try_body (Some url) d))) ->
            called site (fst (try_body (Some url) d))).
  { intros site [arg [H|H]]; [discriminate|].
    apply in_app_or in H. destruct H as [H|H]; [exists arg; exact H|].
    destruct (no_call_in_error_report _ _ _ H). }
  assert (Hback : forall site,
            (exists a, snd (try_body (Some url) d) = Return a) ->
            In (Call site EmptyString)
               [Call AtCursorClose EmptyString; Call AtConnClose EmptyString] ->
            called site (Print "🔍 Checking post_attribution table schema..."
                           :: fst (try_body (Some url) d) ++
                              error_report (snd (try_body (Some url) d)))).
  { intros site [a Ha] Hin. destruct (Hrel a Ha) as [pre Hpre].
    exists EmptyString. right. apply in_or_app. left. rewrite Hpre.
    apply in_or_app. right. exact Hin. }
  split; split.
  - intros H. apply Hcalled in H.
    destruct (Hclose (or_introl H) Hf1 Hf2) as [a ->]. reflexivity.
  - intros H. apply Hback; [|left; reflexivity].
    destruct (snd (try_body (Some url) d)) as [a|e]; [eauto | discriminate].
  - intros H. apply Hcalled in H.
    destruct (Hclose (or_intror H) Hf1 Hf2) as [a ->]. reflexivity.
  - intros H. apply Hback; [|right; left; reflexivity].
    destruct (snd (try_body (Some url) d)) as [a|e]; [eauto | discriminate].
Qed.

Lemma release_only_on_success_witness :
  outcome configured (psycopg2 (Database (Some two_column_table) 1700000000000000))
    = Exited 1 /\
  ~ called AtConnClose
      (events_of configured
         (psycopg2 (Database (Some two_column_table) 1700000000000000))).
Proof.
  split; [reflexivity|].
  intros H.
  destruct (release_only_on_success configured "postgresql://localhost/xbot"
              (psycopg2 (Database (Some two_column_table) 1700000000000000))
              eq_refl ltac:(discriminate) eq_refl eq_refl) as [_ [Hconn _]].
  apply Hconn in H. discriminate H.
Defined.

(** ** The connection string *)




(** ** The content of the catalog *)

Lemma agree_bind (d d' : Driver) {A B} (m : Py A) (k : A -> Py B) :
  agree d d' m -> (forall a, agree d d' (k a)) -> agree d d' (bind m k).
Proof.
  unfold agree, bind. intros Hm Hk. rewrite Hm.
  destruct (m d') as [t [a|e]]; [rewrite Hk|]; reflexivity.
Qed.

Lemma agree_for_each (d d' : Driver) {A} (l : list A) (body : A -> Py unit) :
  (forall x, agree d d' (body x)) -> agree d d' (for_each l body).
Proof.
  intros Hbody. induction l as [|x l IH]; cbn [for_each]; [reflexivity|].
  apply agree_bind; [apply Hbody | intros _; exact IH].
Qed.

Ltac agrees :=
  repeat first
    [ apply agree_bind; intros
    | apply agree_for_each; intros
    | match goal with
      | |- agree _ _ (match ?x with _ => _ end) => destruct x
      | |- agree _ _ (if ?b then _ else _) => destruct b
      end
    | reflexivity ].

(** What follows the column report does not read the catalog. *)
Lemma after_report_agrees (d : Driver) (columns : list ColumnDescriptor) :
  agree d (with_catalog columns d)
    (execute AtExecCount SQL_COUNT ;;
     row <- fetchone_count ;;
     count <- subscript row ;;
     print (nl ++ "📈 Total posts in post_attribution: " ++ str_int count) ;;
     (if 0 <? count
      then execute AtExecStats SQL_STATS ;;
           stats <- fetchone_stats ;;
           report_stats stats
      else ret tt) ;;
     cur_close ;;
     conn_close).
Proof.
  unfold report_stats, execute, fetchone_count, fetchone_stats, cur_close,
    conn_close, subscript, float_of.
  agrees.
Qed.

Lemma try_body_catalog (d : Driver) (url : string) (columns : list ColumnDescriptor) :
  columns <> [] ->
  catalog_rows d <> [] ->
  sites_of (fst (try_body (Some url) (with_catalog columns d))) =
  sites_of (fst (try_body (Some url) d)) /\
  snd (try_body (Some url) (with_catalog columns d)) = snd (try_body (Some url) d).
Proof.
  intros Hcols Hd.
  unfold try_body, connect, cursor, execute, fetchall.
  set (d' := with_catalog columns d).
  destruct (fault d AtConnect) as [msg|] eqn:F1;
    [rewrite (bind_call_fault d _ _ msg _ F1), (bind_call_fault d' _ _ msg _ F1);
     split; reflexivity|].
  rewrite (bind_call d _ _ _ F1), (bind_call d' _ _ _ F1).
  destruct (fault d AtCursor) as [msg|] eqn:F2;
    [rewrite (bind_call_fault d _ _ msg _ F2), (bind_call_fault d' _ _ msg _ F2);
     split; reflexivity|].
  rewrite (bind_call d _ _ _ F2), (bind_call d' _ _ _ F2).
  destruct (fault d AtExecColumns) as [msg|] eqn:F3;
    [rewrite (bind_call_fault d _ _ msg _ F3), (bind_call_fault d' _ _ msg _ F3);
     split; reflexivity|].
  rewrite (bind_call d _ _ _ F3), (bind_call d' _ _ _ F3).
  rewrite !bind_bind.
  destruct (fault d AtFetchColumns) as [msg|] eqn:F4;
    [rewrite (bind_call_fault d _ _ msg _ F4), (bind_call_fault d' _ _ msg _ F4);
     split; reflexivity|].
  rewrite (bind_call d _ _ _ F4), (bind_call d' _ _ _ F4).
  rewrite (bind_result_set d), (bind_result_set d').
  change (catalog_rows d') with columns.
  destruct columns as [|c columns]; [congruence|].
  destruct (catalog_rows d) as [|c0 columns0]; [congruence|].
  rewrite (bind_ret d), (bind_ret d'), (bind_print d), (bind_print d').
  rewrite (bind_listing d), (bind_listing d').
  pose proof (after_report_agrees d (c :: columns)) as Hrest.
  unfold agree, execute in Hrest. fold d' in Hrest.
  destruct (missing_columns (c :: columns)), (missing_columns (c0 :: columns0));
    repeat first [rewrite (bind_print d) | rewrite (bind_print d') | rewrite bind_bind];
    rewrite <- Hrest;
    unfold prepend; cbn [fst snd app sites_of];
    rewrite !sites_of_app, !sites_of_listing; split; reflexivity.
Qed.

(** X5: the script does not branch on what the catalog statement returns,
    beyond its being empty or not: in front of databases that answer every
    call alike and differ only in the columns they list (some, in both),
    the runs make the same calls and end with the same exit status.  The
    missing-columns warning is a line of the report and nothing else. *)
Theorem catalog_content_is_not_fatal (environ : Environ) (url : string) (d : Driver)
    (columns : list ColumnDescriptor) :
  getenv "DATABASE_URL" environ = Some url ->
  url <> EmptyString ->
  columns <> [] ->
  catalog_rows d <> [] ->
  sites_of (events_of environ (with_catalog columns d)) = sites_of (events_of environ d) /\
  outcome environ (with_catalog columns d) = outcome environ d.
Proof.
  intros Henv Hurl Hcols Hd.
  rewrite !(events_configured _ _ _ Henv Hurl), !(outcome_configured _ _ _ Henv Hurl).
  destruct (try_body_catalog d url columns Hcols Hd) as [Hsites Hresult].
  rewrite Hresult. split; [|reflexivity].
  cbn [sites_of]. rewrite !sites_of_app, Hsites. reflexivity.
Qed.

Lemma catalog_content_is_not_fatal_witness :
  sites_of (events_of configured
              (with_catalog (catalog two_column_table)
                 (psycopg2 (Database (Some three_rows) 1700000000000000)))) =
  sites_of (events_of configured
              (psycopg2 (Database (Some three_rows) 1700000000000000))) /\
  outcome configured
    (with_catalog (catalog two_column_table)
       (psycopg2 (Database (Some three_rows) 1700000000000000))) =
  outcome configured (psycopg2 (Database (Some three_rows) 1700000000000000)).
Proof.
  apply (catalog_content_is_not_fatal configured "postgresql://localhost/xbot");
    [reflexivity | discriminate | discriminate | discriminate].
Defined.

(** ** The runs that end with status 0 *)








(** ** The exit status in front of a table *)






(** ** The report on the essential columns *)

Ltac not_verdict :=
  let H := fresh "H" in
  unfold not_a_verdict, all_exist_line, required_line, missing_line, nl, describe;
  (split; [intros H | split; [intros H | intros ? H]]);
  cbn [append] in H; discriminate H.

Lemma missing_none (columns : list ColumnDescriptor) :
  missing_columns columns = [] <-> all_essential columns.
Proof.
  split.
  - intros H col Hin.
    destruct (str_in col (existing_columns columns)) eqn:E;
      [apply str_in_spec; exact E|].
    assert (Hmiss : In col (missing_columns columns)).
    { apply missing_columns_spec. split; [exact Hin|].
      rewrite <- str_in_spec. congruence. }
    rewrite H in Hmiss. destruct Hmiss.
  - intros H. destruct (missing_columns columns) as [|col l] eqn:E; [reflexivity|].
    assert (Hin : In col (missing_columns columns)) by (rewrite E; left; reflexivity).
    apply missing_columns_spec in Hin. destruct Hin as [Hess Hnot].
    destruct (Hnot (H col Hess)).
Qed.

Lemma after_report_not_a_verdict (d : Driver) :
  events_satisfy not_a_verdict d after_report.
Proof.
  unfold after_report, after_count, report_stats, execute, fetchone_count,
    fetchone_stats, cur_close, conn_close, subscript, float_of.
  satisfy ltac:(first [exact I | not_verdict]).
Qed.

Lemma try_body_reported (url : string) (d : Driver) :
  catalog_answers d ->
  catalog_rows d <> [] ->
  exists before,
    Forall not_a_verdict before /\
    try_body (Some url) d =
      prepend (before ++ missing_report (catalog_rows d)) (after_report d).
Proof.
  intros (H1 & H2 & H3 & H4) Hcat.
  exists ([Call AtConnect url;
           Call AtCursor EmptyString;
           Call AtExecColumns SQL_COLUMNS;
           Call AtFetchColumns EmptyString;
           Print ("�� Found " ++ str_int (Z.of_nat (List.length (catalog_rows d))) ++
                  " columns in post_attribution table:")] ++
          map (fun col => Print (describe col)) (catalog_rows d))%list.
  split.
  - apply Forall_app. split.
    + repeat first [apply Forall_nil
                   | apply Forall_cons; [first [exact I | not_verdict]|]].
    + apply Forall_forall. intros e He. apply in_map_iff in He.
      destruct He as (col & <- & _). not_verdict.
  - unfold try_body, connect, cursor, execute, fetchall, missing_report.
    do 6 step.
    destruct (catalog_rows d) as [|col columns]; [congruence|].
    do 3 step.
    destruct (missing_columns (col :: columns)); repeat step;
      repeat rewrite <- app_assoc; reflexivity.
Qed.

Lemma events_around_report (environ : Environ) (url : string) (d : Driver) :
  getenv "DATABASE_URL" environ = Some url ->
  url <> EmptyString ->
  catalog_answers d ->
  catalog_rows d <> [] ->
  exists before after,
    events_of environ d = (before ++ missing_report (catalog_rows d) ++ after)%list /\
    Forall not_a_verdict before /\
    Forall not_a_verdict after.
Proof.
  intros Henv Hurl Hans Hcat.
  rewrite (events_configured _ _ d Henv Hurl).
  destruct (try_body_reported url d Hans Hcat) as (before & Hbefore & ->).
  unfold prepend. cbn [fst snd].
  exists (Print "🔍 Checking post_attribution table schema..." :: before),
    (fst (after_report d) ++ error_report (snd (after_report d)))%list.
  split; [cbn [app]; repeat rewrite <- app_assoc; reflexivity|].
  split.
  - constructor; [not_verdict | exact Hbefore].
  - apply Forall_app. split; [apply after_report_not_a_verdict|].
    destruct (snd (after_report d)) as [a|[msg|code]]; cbn [error_report];
      repeat first [apply Forall_nil | apply Forall_cons; [not_verdict|]].
Qed.

(** X8: once the catalog statement has answered with some columns, the
    run prints the line "All essential columns exist!" exactly when every
    name of line 38 is the name of a listed column; otherwise, and only
    then, it prints the line of the missing names, with the list of line
    41, and the line that says they are required.  No other line of a run
    is one of these three. *)
Theorem essential_columns_verdict (environ : Environ) (url : string) (d : Driver) :
  getenv "DATABASE_URL" environ = Some url ->
  url <> EmptyString ->
  catalog_answers d ->
  catalog_rows d <> [] ->
  (In (Print all_exist_line) (events_of environ d) <-> all_essential (catalog_rows d)) /\
  (In (Print required_line) (events_of environ d) <-> ~ all_essential (catalog_rows d)) /\
  (forall missing,
     In (Print (missing_line missing)) (events_of environ d) ->
     ~ all_essential (catalog_rows d)) /\
  (~ all_essential (catalog_rows d) ->
   In (Print (missing_line (missing_columns (catalog_rows d)))) (events_of environ d)).
Proof.
  intros Henv Hurl Hans Hcat.
  destruct (events_around_report environ url d Henv Hurl Hans Hcat)
    as (before & after & -> & Hbefore & Hafter).
  rewrite Forall_forall in Hbefore, Hafter.
  assert (Hin : forall text,
            ~ not_a_verdict (Print text) ->
            In (Print text) (before ++ missing_report (catalog_rows d) ++ after) <->
            In (Print text) (missing_report (catalog_rows d))).
  { intros text Hv. rewrite !in_app_iff. split.
    - intros [H|[H|H]];
        [destruct (Hv (Hbefore _ H)) | exact H | destruct (Hv (Hafter _ H))].
    - intros H. right. left. exact H. }
  assert (Hv1 : ~ not_a_verdict (Print all_exist_line))
    by (intros H; exact (proj1 H eq_refl)).
  assert (Hv2 : ~ not_a_verdict (Print required_line))
    by (intros H; exact (proj1 (proj2 H) eq_refl)).
  assert (Hv3 : forall missing, ~ not_a_verdict (Print (missing_line missing)))
    by (intros missing H; exact (proj2 (proj2 H) missing eq_refl)).
  rewrite (Hin _ Hv1), (Hin _ Hv2).
  pose proof (missing_none (catalog_rows d)) as Hnone.
  rewrite <- Hnone.
  unfold missing_report in *.
  destruct (missing_columns (catalog_rows d)) as [|col missing'] eqn:E.
  - split; [split; [reflexivity | intros _; left; reflexivity]|].
    split; [split; [intros [H|[]]; discriminate H | intros H; destruct (H eq_refl)]|].
    split; [|intros H; destruct (H eq_refl)].
    intros missing H. apply (Hin _ (Hv3 missing)) in H.
    destruct H as [H|[]]. discriminate H.
  - split; [split; [intros [H|[H|[]]]; discriminate H | discriminate]|].
    split; [split; [discriminate | intros _; right; left; reflexivity]|].
    split; [intros missing _ Hall; apply Hnone in Hall; discriminate Hall|].
    intros _. apply (Hin _ (Hv3 _)). left. reflexivity.
Qed.

Lemma essential_columns_verdict_witness :
  In (Print required_line)
     (events_of configured
        (psycopg2 (Database (Some two_column_table) 1700000000000000))) /\
  ~ In (Print all_exist_line)
      (events_of configured
         (psycopg2 (Database (Some two_column_table) 1700000000000000))).
Proof.
  destruct (essential_columns_verdict configured "postgresql://localhost/xbot"
              (psycopg2 (Database (Some two_column_table) 1700000000000000))
              eq_refl ltac:(discriminate) ltac:(repeat split) ltac:(discriminate))
    as (Hall & Hreq & _).
  assert (Hnot : ~ all_essential (catalog_rows
                    (psycopg2 (Database (Some two_column_table) 1700000000000000)))).
  { intros H. specialize (H "impressions" ltac:(right; left; reflexivity)).
    cbn in H. destruct H as [H|[H|[]]]; discriminate H. }
  split; [apply Hreq; exact Hnot | intros H; apply Hnot, Hall, H].
Defined.

Lemma essential_columns_distinct : NoDup essential_columns.
Proof.
  unfold essential_columns.
  repeat (constructor; [cbn [In]; intuition discriminate|]). constructor.
Qed.

(** X9: the list of line 41 depends on the names of the listed columns
    only, not on their order, their types, their nullability or their
    repetition: two catalog answers with the same names give the same list,
    hence the same report.  The list never names a column twice. *)
Theorem missing_columns_by_name (columns1 columns2 : list ColumnDescriptor) :
  (forall col, In col (existing_columns columns1) <-> In col (existing_columns columns2)) ->
  missing_columns columns1 = missing_columns columns2 /\
  missing_report columns1 = missing_report columns2 /\
  NoDup (missing_columns columns1).
Proof.
  intros Hnames.
  assert (Heq : missing_columns columns1 = missing_columns columns2).
  { unfold missing_columns. apply filter_ext. intros col. f_equal.
    apply eq_true_iff_eq. rewrite !str_in_spec. apply Hnames. }
  split; [exact Heq|]. split.
  - unfold missing_report. rewrite Heq. reflexivity.
  - unfold missing_columns. apply NoDup_filter, essential_columns_distinct.
Qed.

Lemma missing_columns_by_name_witness :
  missing_columns (catalog two_column_table) =
  missing_columns (catalog empty_two_column_table) /\
  missing_report (catalog two_column_table) =
  missing_report (catalog empty_two_column_table) /\
  NoDup (missing_columns (catalog two_column_table)).
Proof.
  apply (missing_columns_by_name (catalog two_column_table)
           (catalog empty_two_column_table)).
  intros col. cbn. tauto.
Defined.

(** ** Averages that are false *)

(** X10: an average that Python takes for false ([None], a [Decimal] zero,
    the floats 0.0 and -0.0) is replaced by the integer 0 before [float()]:
    its line reads 0.00%, 0 or 0.0, without a sign, whatever the other
    fields of the row. *)
Theorem falsy_average_prints_zero (d : Driver) (row : StatsRow) :
  (truthy_number (avg_engagement row) = false ->
   In (Print "  - Avg Engagement: 0.00%") (fst (report_stats (Some row) d))) /\
  (truthy_number (avg_views row) = false ->
   In (Print "  - Avg Views: 0") (fst (report_stats (Some row) d))) /\
  (truthy_number (avg_followers row) = false ->
   In (Print "  - Avg Followers: 0.0") (fst (report_stats (Some row) d))).
Proof.
  rewrite report_stats_lines. unfold stats_lines, float_or_zero, or_zero.
  cbn [fst In].
  split; [|split]; intros ->; cbn [py_float].
  - right. right. left. reflexivity.
  - right. right. right. left. reflexivity.
  - right. right. right. right. left. reflexivity.
Qed.

Lemma falsy_average_prints_zero_witness :
  In (Print "  - Avg Engagement: 0.00%")
     (fst (report_stats
             (Some {| total_posts := 2;
                      avg_engagement := PyFloat (- 0)%float;
                      avg_views := PyDecimal (0 # 7);
                      avg_followers := PyNone;
                      most_recent_post := Some at_noon |})
             (psycopg2 (Database None 0)))) /\
  In (Print "  - Avg Views: 0")
     (fst (report_stats
             (Some {| total_posts := 2;
                      avg_engagement := PyFloat (- 0)%float;
                      avg_views := PyDecimal (0 # 7);
                      avg_followers := PyNone;
                      most_recent_post := Some at_noon |})
             (psycopg2 (Database None 0)))) /\
  In (Print "  - Avg Followers: 0.0")
     (fst (report_stats
             (Some {| total_posts := 2;
                      avg_engagement := PyFloat (- 0)%float;
                      avg_views := PyDecimal (0 # 7);
                      avg_followers := PyNone;
                      most_recent_post := Some at_noon |})
             (psycopg2 (Database None 0)))).
Proof.
  destruct (falsy_average_prints_zero (psycopg2 (Database None 0))
              {| total_posts := 2;
                 avg_engagement := PyFloat (- 0)%float;
                 avg_views := PyDecimal (0 # 7);
                 avg_followers := PyNone;
                 most_recent_post := Some at_noon |}) as (H1 & H2 & H3).
  split; [apply H1; reflexivity | split; [apply H2; reflexivity | apply H3; reflexivity]].
Defined.

(** ** The aggregate row *)

Lemma sql_avg_none (values : list Q) : sql_avg values = PyNone <-> values = [].
Proof. destruct values; cbn [sql_avg]; split; try reflexivity; discriminate. Qed.

Lemma length_zero_nil {A} (l : list A) : Z.of_nat (List.length l) = 0 <-> l = [].
Proof. destruct l; cbn [List.length]; split; try reflexivity; try discriminate; lia. Qed.

Lemma map_nil {A B} (f : A -> B) (l : list A) : map f l = [] <-> l = [].
Proof. destruct l; cbn [map]; split; try reflexivity; discriminate. Qed.

Lemma sql_max_some (values : list (option Datetime)) :
  Forall (fun v => v <> None) values ->
  (sql_max values = None <-> values = []).
Proof.
  intros Hall. destruct Hall as [|v values Hv Hall]; [split; reflexivity|].
  split; [|discriminate]. cbn [sql_max].
  destruct v as [t|]; [|destruct (Hv eq_refl)].
  destruct (sql_max values); discriminate.
Qed.

Lemma sql_max_bound (values : list (option Datetime)) (t : Datetime) :
  In (Some t) values ->
  exists m, sql_max values = Some m /\ instant t <= instant m.
Proof.
  induction values as [|v values IH]; [intros []|].
  intros [->|Hin]; cbn [sql_max].
  - destruct (sql_max values) as [u|].
    + destruct (instant t <? instant u) eqn:E; eexists; (split; [reflexivity|]).
      * apply Z.ltb_lt in E. lia.
      * lia.
    + eexists; split; [reflexivity | lia].
  - destruct (IH Hin) as (m & -> & Hle).
    destruct v as [u|].
    + destruct (instant u <? instant m) eqn:E; eexists; (split; [reflexivity|]).
      * exact Hle.
      * apply Z.ltb_ge in E. lia.
    + eexists; split; [reflexivity | exact Hle].
Qed.

Lemma window_recent (now : Z) (p : nat -> option Datetime) (rows i : nat) :
  In i (window now p rows) <->
  (i < rows)%nat /\ exists t, p i = Some t /\ now - seven_days < instant t.
Proof.
  unfold window, recent. rewrite filter_In, in_seq. split.
  - intros [Hi H]. split; [lia|]. destruct (p i) as [t|]; [|discriminate].
    exists t. split; [reflexivity | apply Z.ltb_lt; exact H].
  - intros [Hi (t & -> & H)]. split; [lia | apply Z.ltb_lt; exact H].
Qed.

(** X11: the row of the statement of lines 56-65, when the server accepts
    it.  Its count is the number of rows whose posted_at is later than
    seven days before the server's clock, so at most the count of line 50;
    the three averages and the maximum are NULL exactly when that count is
    0, which is when lines 70-72 need their [or 0]; and the maximum is a
    posted_at of the window that none of the window exceeds. *)
Theorem aggregate_row_of_window (t : Table) (now : Z) (row : StatsRow) :
  sql_stats t now = inr row ->
  0 <= total_posts row <= Z.of_nat (table_rows t) /\
  (avg_engagement row = PyNone <-> total_posts row = 0) /\
  (avg_views row = PyNone <-> total_posts row = 0) /\
  (avg_followers row = PyNone <-> total_posts row = 0) /\
  (most_recent_post row = None <-> total_posts row = 0) /\
  (forall p i at_i,
     posted_at_cells (table_columns t) = inr p ->
     (i < table_rows t)%nat ->
     p i = Some at_i ->
     now - seven_days < instant at_i ->
     exists m, most_recent_post row = Some m /\ instant at_i <= instant m).
Proof.
  intros Hrow.
  destruct (sql_stats_accepted t now row Hrow) as (e & v & f & p & _ & _ & _ & Hp & ->).
  cbn [total_posts avg_engagement avg_views avg_followers most_recent_post].
  unfold recent_rows. rewrite Hp.
  rewrite !sql_avg_none, !map_nil, length_zero_nil.
  split.
  { split; [lia|]. apply inj_le. unfold window.
    apply Nat.le_trans with (List.length (seq 0 (table_rows t)));
      [apply filter_length_le | rewrite length_seq; lia]. }
  split; [reflexivity|]. split; [reflexivity|]. split; [reflexivity|]. split.
  - rewrite sql_max_some, map_nil; [reflexivity|].
    apply Forall_forall. intros x Hx. apply in_map_iff in Hx.
    destruct Hx as (i & <- & Hi). apply window_recent in Hi.
    destruct Hi as [_ (u & -> & _)]. discriminate.
  - intros p' i at_i [= <-] Hi Hcell Hrecent.
    apply sql_max_bound. rewrite <- Hcell. apply in_map.
    apply window_recent. split; [exact Hi|]. exists at_i. split; assumption.
Qed.

Lemma aggregate_row_of_window_witness :
  exists row,
    sql_stats three_rows 1700000000000000 = inr row /\
    total_posts row = 2 /\
    most_recent_post row = Some at_noon /\
    0 <= total_posts row <= 3 /\
    (avg_engagement row = PyNone <-> total_posts row = 0).
Proof.
  eexists. split; [reflexivity|]. split; [reflexivity|]. split; [reflexivity|].
  pose proof (aggregate_row_of_window three_rows 1700000000000000 _ eq_refl)
    as (Hcount & Havg & _).
  split; [exact Hcount | exact Havg].
Defined.

(** ** The listing *)





